(** * Finsaver dashboard: forecast engine, budget variance and alert ticks

    A shallow embedding of the arithmetic that lives inside the React
    components of [cfo-helper-enhanced/components]:

    - [calculateForecast] of [cfo-dashboard.tsx],
    - [getVarianceColor] / [getVarianceIcon] of
      [enhanced-features/budget-tracker.tsx] (and of its older copy),
    - the five-second simulation tick and [addAlert] of
      [enhanced-features/alerts-notifications.tsx],
    - the role editor and the insight feed of [cfo-dashboard.tsx], the
      editing functions of the budget tracker and of the alert list,
      [getProgressColor] of [enhanced-features/kpi-dashboard.tsx] and
      the category totals of [cash-flow-categories.tsx].

    Number model.  A finite JavaScript number is an exact rational [Q]:
    rounding and overflow of binary64 are idealised away, and there is
    no negative zero.  Where the source can leave the finite numbers (a
    division, the literal [Number.POSITIVE_INFINITY]) the result is a
    [JSNumber], which also has the two infinities and [NaN].  Equality
    of numbers is [Qeq], written [==]. *)

From Stdlib Require Import QArith Qminmax Qround Qabs Lqa ZArith Lia List Bool String.
Import ListNotations.

Open Scope Q_scope.

(** ** JavaScript numbers *)

Module JS.

Inductive JSNumber : Type :=
| Finite (q : Q)
| PosInfinity
| NegInfinity
| NaN.

(** [x < y] on finite numbers, as a boolean. *)
Definition Qltb (x y : Q) : bool :=
  match x ?= y with Lt => true | _ => false end.

(** [x >= y] and [x <= y] on finite numbers. *)
Definition Qgeb (x y : Q) : bool := Qle_bool y x.
Definition Qleb (x y : Q) : bool := Qle_bool x y.

(** A loop counter seen as a number. *)
Definition Qnat (n : nat) : Q := inject_Z (Z.of_nat n).

(** [Math.max(a, b)] on finite numbers. *)
Definition Math_max (a b : Q) : Q := Qmax a b.

(** [a / b] for finite [a] and [b]: IEEE division leaves the finite
    numbers exactly when the divisor is zero. *)
Definition div (a b : Q) : JSNumber :=
  if Qeq_bool b 0 then
    match a ?= 0 with
    | Eq => NaN
    | Gt => PosInfinity
    | Lt => NegInfinity
    end
  else Finite (a / b).

(** [x * k] for a finite [k]. *)
Definition mul (x : JSNumber) (k : Q) : JSNumber :=
  match x with
  | Finite a => Finite (a * k)
  | NaN => NaN
  | PosInfinity =>
      match k ?= 0 with Eq => NaN | Gt => PosInfinity | Lt => NegInfinity end
  | NegInfinity =>
      match k ?= 0 with Eq => NaN | Gt => NegInfinity | Lt => PosInfinity end
  end.

(** [x > k] and [x < k] for a finite [k]; every comparison with [NaN]
    is false. *)
Definition gt (x : JSNumber) (k : Q) : bool :=
  match x with
  | Finite a => Qltb k a
  | PosInfinity => true
  | NegInfinity => false
  | NaN => false
  end.

Definition lt (x : JSNumber) (k : Q) : bool :=
  match x with
  | Finite a => Qltb a k
  | PosInfinity => false
  | NegInfinity => true
  | NaN => false
  end.

(** [for (let i = lo; i < hi; i++) st = body(st, i)]. *)
Definition for_range {St : Type} (lo hi : nat) (body : St -> nat -> St) (st : St) : St :=
  fold_left body (seq lo (hi - lo)) st.

End JS.

(** ** The forecast engine ([cfo-dashboard.tsx]) *)

Module Dashboard.
Import JS.

Record HeadcountRole : Type := {
  id : string;
  role : string;
  salary : Q;
  startMonth : Q
}.

(** [FinancialInputs & { headcount?: HeadcountRole[] }]: the argument
    of [calculateForecast]; an absent [headcount] is [None]. *)
Record ForecastParams : Type := {
  monthlySpend : Q;
  oneTimeSpend : Q;
  priceIncrease : Q;
  headcount : option (list HeadcountRole)
}.

Record FinancialBaseline : Type := {
  bankBalance : Q;
  monthlyRevenue : Q;
  monthlyCosts : Q
}.

Record ForecastResult : Type := {
  runway : JSNumber;
  burn : Q;
  forecastData : list Q
}.

(** [list.reduce((sum, r) => sum + r.salary, 0)]. *)
Definition sumSalaries (l : list HeadcountRole) : Q :=
  fold_left (fun sum r => sum + salary r) l 0.

Section Forecast.
(** What the closure of [calculateForecast] captures: the constant
    [initialData] and the component's [headcount] state. *)
Variable initialData : FinancialBaseline.
Variable headcountState : list HeadcountRole.

(** [params.headcount || headcount]: an array, even an empty one, is
    truthy, so only an absent field falls back to the state. *)
Definition localHeadcount (params : ForecastParams) : list HeadcountRole :=
  match headcount params with
  | Some h => h
  | None => headcountState
  end.

Definition monthlyHeadcountCost (params : ForecastParams) (month : nat) : Q :=
  sumSalaries
    (filter (fun r => Qltb (startMonth r) (Qnat month)) (localHeadcount params)).

Definition effectiveRevenue (params : ForecastParams) : Q :=
  monthlyRevenue initialData * (1 + priceIncrease params / 100).

Definition monthlyBurn (params : ForecastParams) (month : nat) : Q :=
  monthlyCosts initialData + monthlySpend params
  + monthlyHeadcountCost params month - effectiveRevenue params.

(** One iteration of the loop; the state is [(currentBalance, forecast)]. *)
Definition forecastStep (params : ForecastParams)
    (st : Q * list Q) (month : nat) : Q * list Q :=
  let '(currentBalance, forecast) := st in
  let currentBalance := currentBalance - monthlyBurn params month in
  (currentBalance, forecast ++ [Math_max 0 currentBalance]).

Definition calculateForecast (params : ForecastParams) : ForecastResult :=
  let currentBalance := bankBalance initialData - oneTimeSpend params in
  let forecast := [currentBalance] in
  let '(_, forecast) :=
    for_range 1 25 (forecastStep params) (currentBalance, forecast) in
  let firstMonthHeadcount := sumSalaries (localHeadcount params) in
  let displayBurn :=
    monthlyCosts initialData + monthlySpend params + firstMonthHeadcount
    - monthlyRevenue initialData * (1 + priceIncrease params / 100) in
  let displayRunway :=
    if Qltb 0 displayBurn
    then div (bankBalance initialData - oneTimeSpend params) displayBurn
    else PosInfinity in
  {| runway := displayRunway; burn := displayBurn; forecastData := forecast |}.

End Forecast.

(** The constant of the component. *)
Definition initialData : FinancialBaseline :=
  {| bankBalance := 5000000; monthlyRevenue := 800000; monthlyCosts := 1200000 |}.

(** [const baseResult = calculateForecast({ monthlySpend: 0, ..., headcount: [] })]. *)
Definition baseResult (headcountState : list HeadcountRole) : ForecastResult :=
  calculateForecast initialData headcountState
    {| monthlySpend := 0; oneTimeSpend := 0; priceIncrease := 0; headcount := Some [] |}.

End Dashboard.

(** ** Budget variance ([enhanced-features/budget-tracker.tsx]) *)

Module BudgetTracker.
Import JS.

Record BudgetItem : Type := {
  id : string;
  category : string;
  budgeted : Q;
  actual : Q;
  month : string
}.

(** [((actual - budgeted) / budgeted) * 100], the local [variance] of
    both functions below. *)
Definition variance (budgeted actual : Q) : JSNumber :=
  mul (div (actual - budgeted) budgeted) 100.

Definition getVarianceColor (budgeted actual : Q) : string :=
  let variance := variance budgeted actual in
  if gt variance 10 then "text-red-500 dark:text-red-400"%string
  else if lt variance (-10) then "text-green-500 dark:text-green-400"%string
  else "text-yellow-500 dark:text-yellow-400"%string.

(** The icon components the second function renders. *)
Inductive Icon : Type := TrendingUp | TrendingDown | AlertTriangle.

Definition getVarianceIcon (budgeted actual : Q) : Icon :=
  let variance := variance budgeted actual in
  if gt variance 10 then TrendingUp
  else if lt variance (-10) then TrendingDown
  else AlertTriangle.

(** The older copy of the component: the same tests, class names
    without the dark-mode variants. *)
Module Legacy.
Definition getVarianceColor (budgeted actual : Q) : string :=
  let variance := variance budgeted actual in
  if gt variance 10 then "text-red-500"%string
  else if lt variance (-10) then "text-green-500"%string
  else "text-yellow-500"%string.
End Legacy.

End BudgetTracker.

(** ** Alerts ([enhanced-features/alerts-notifications.tsx]) *)

Module Alerts.
Import JS.

Inductive AlertType : Type := warning | critical | info.
Inductive Metric : Type := runway | burn_rate | revenue | cash_balance | expenses.
Inductive Condition : Type := below | above | equals.

Record Alert : Type := {
  id : string;
  title : string;
  description : string;
  type : AlertType;
  threshold : Q;
  currentValue : Q;
  isActive : bool;
  createdAt : string;
  metric : Metric;
  condition : Condition;
  emailNotifications : bool;
  pushNotifications : bool
}.

(** [{ ...alert, currentValue: v }] and [{ ...alert, currentValue: v, isActive: true }]. *)
Definition withCurrentValue (alert : Alert) (v : Q) : Alert :=
  {| id := id alert; title := title alert; description := description alert;
     type := type alert; threshold := threshold alert; currentValue := v;
     isActive := isActive alert; createdAt := createdAt alert;
     metric := metric alert; condition := condition alert;
     emailNotifications := emailNotifications alert;
     pushNotifications := pushNotifications alert |}.

Definition withIsActive (alert : Alert) (b : bool) : Alert :=
  {| id := id alert; title := title alert; description := description alert;
     type := type alert; threshold := threshold alert;
     currentValue := currentValue alert;
     isActive := b; createdAt := createdAt alert;
     metric := metric alert; condition := condition alert;
     emailNotifications := emailNotifications alert;
     pushNotifications := pushNotifications alert |}.

(** *** The browser as the tick sees it *)

Inductive NotificationPermission : Type := granted | denied | default.

(** What a tick can do to the outside: construct a [Notification], or
    start [requestNotificationPermission] (whose continuation runs
    after the tick). *)
Inductive Event : Type :=
| NewNotification (title body : string)
| RequestPermission.

Record World : Type := {
  hasNotification : bool;              (* "Notification" in window *)
  permission : NotificationPermission; (* Notification.permission *)
  randomSource : nat -> Q;             (* successive Math.random() results *)
  randomCalls : nat;
  events : list Event
}.

Definition M (A : Type) : Type := World -> A * World.

Definition ret {A : Type} (a : A) : M A := fun w => (a, w).

Definition bind {A B : Type} (m : M A) (k : A -> M B) : M B :=
  fun w => let '(a, w1) := m w in k a w1.

Notation "x <- m ;; k" := (bind m (fun x => k))
  (at level 61, m at next level, right associativity).
Notation "m ;;; k" := (bind m (fun _ => k))
  (at level 61, right associativity).

Definition Math_random : M Q :=
  fun w =>
    (randomSource w (randomCalls w),
     {| hasNotification := hasNotification w; permission := permission w;
        randomSource := randomSource w; randomCalls := S (randomCalls w);
        events := events w |}).

Definition emit (e : Event) : M unit :=
  fun w =>
    (tt,
     {| hasNotification := hasNotification w; permission := permission w;
        randomSource := randomSource w; randomCalls := randomCalls w;
        events := events w ++ [e] |}).

Definition showNotification (title description : string) : M unit :=
  fun w =>
    if hasNotification w then
      match permission w with
      | granted => emit (NewNotification ("CFO Alert: " ++ title) description) w
      | default => emit RequestPermission w
      | denied => ret tt w
      end
    else ret tt w.

Fixpoint mapM {A B : Type} (f : A -> M B) (l : list A) : M (list B) :=
  match l with
  | [] => ret []
  | a :: l' => b <- f a ;; bs <- mapM f l' ;; ret (b :: bs)
  end.

(** *** The simulation tick *)

Definition newValueOf (alert : Alert) (random : Q) : Q :=
  let variation := (random - (1 # 2)) * (1 # 10) in
  currentValue alert * (1 + variation).

Definition conditionIs (c d : Condition) : bool :=
  match c, d with
  | below, below | above, above | equals, equals => true
  | _, _ => false
  end.

Definition thresholdCrossed (alert : Alert) (newValue : Q) : bool :=
  (conditionIs (condition alert) below
     && Qltb newValue (threshold alert)
     && Qgeb (currentValue alert) (threshold alert))
  || (conditionIs (condition alert) above
        && Qltb (threshold alert) newValue
        && Qleb (currentValue alert) (threshold alert)).

(** The callback of [prevAlerts.map]. *)
Definition tickAlert (alert : Alert) : M Alert :=
  random <- Math_random ;;
  let newValue := newValueOf alert random in
  if thresholdCrossed alert newValue && negb (isActive alert) then
    (if pushNotifications alert
     then showNotification (title alert) (description alert)
     else ret tt) ;;;
    ret (withIsActive (withCurrentValue alert newValue) true)
  else ret (withCurrentValue alert newValue).

(** The updater passed to [setAlerts] every five seconds. *)
Definition tick (prevAlerts : list Alert) : M (list Alert) :=
  mapM tickAlert prevAlerts.

(** *** Creating an alert *)

Module Form.
Record NewAlert : Type := {
  title : string;
  description : string;
  type : AlertType;
  threshold : string;
  metric : Metric;
  condition : Condition;
  emailNotifications : bool;
  pushNotifications : bool
}.

Definition empty : NewAlert :=
  {| title := ""; description := ""; type := warning; threshold := "";
     metric := runway; condition := below;
     emailNotifications := true; pushNotifications := false |}.
End Form.

(** A string is truthy when it is not empty. *)
Definition truthy (s : string) : bool :=
  match s with EmptyString => false | _ => true end.

Section AddAlert.
(** [Number.parseFloat], restricted to texts that denote a finite
    number, and the two readings of the clock. *)
Variable parseFloat : string -> Q.
Variable nowId : string.      (* Date.now().toString() *)
Variable today : string.      (* new Date().toISOString().split("T")[0] *)

Definition addAlert (alerts : list Alert) (newAlert : Form.NewAlert)
    : list Alert * Form.NewAlert :=
  if truthy (Form.title newAlert) && truthy (Form.description newAlert)
     && truthy (Form.threshold newAlert)
  then
    let alert :=
      {| id := nowId;
         title := Form.title newAlert;
         description := Form.description newAlert;
         type := Form.type newAlert;
         threshold := parseFloat (Form.threshold newAlert);
         currentValue := 0;
         isActive := true;
         createdAt := today;
         metric := Form.metric newAlert;
         condition := Form.condition newAlert;
         emailNotifications := Form.emailNotifications newAlert;
         pushNotifications := Form.pushNotifications newAlert |} in
    (alerts ++ [alert], Form.empty)
  else (alerts, newAlert).
End AddAlert.

Definition dismissAlert (alerts : list Alert) (i : string) : list Alert :=
  map (fun alert => if String.eqb (id alert) i then withIsActive alert false else alert)
      alerts.

End Alerts.


(** ** The specification's wording of the forecast

    Definitions that follow the text of the specification, to be
    compared with the embedding of the code above. *)

Module ForecastSpec.
Import JS Dashboard.

(** "sum of role.salary for every role where role.startMonth < m". *)
Fixpoint headcountCostBefore (roles : list HeadcountRole) (m : nat) : Q :=
  match roles with
  | [] => 0
  | r :: rest =>
      (if Qlt_le_dec (startMonth r) (Qnat m) then salary r else 0)
      + headcountCostBefore rest m
  end.

(** "sum(all role.salary)". *)
Fixpoint totalSalaries (roles : list HeadcountRole) : Q :=
  match roles with
  | [] => 0
  | r :: rest => salary r + totalSalaries rest
  end.

Section Spec.
Variable baseline : FinancialBaseline.
Variable inputs : ForecastParams.
Variable roles : list HeadcountRole.

Definition effectiveRevenue : Q :=
  monthlyRevenue baseline * (1 + priceIncrease inputs / 100).

Definition monthlyBurn (m : nat) : Q :=
  monthlyCosts baseline + monthlySpend inputs + headcountCostBefore roles m
  - effectiveRevenue.

(** The unclamped balance after month [m]. *)
Fixpoint balance (m : nat) : Q :=
  match m with
  | O => bankBalance baseline - oneTimeSpend inputs
  | S k => balance k - monthlyBurn (S k)
  end.

Definition displayBurn : Q :=
  monthlyCosts baseline + monthlySpend inputs + totalSalaries roles
  - effectiveRevenue.

End Spec.

(** A series is non-increasing when each entry is at most the one before. *)
Definition nonIncreasing (l : list Q) : Prop :=
  forall i x y, nth_error l i = Some x -> nth_error l (S i) = Some y -> y <= x.

(** Once an entry is zero, every later entry is zero. *)
Definition staysAtZero (l : list Q) : Prop :=
  forall i j x y, (i < j)%nat ->
    nth_error l i = Some x -> nth_error l j = Some y -> x == 0 -> y == 0.

End ForecastSpec.

(** ** The specification's wording of the budget classes *)

Module BudgetSpec.
Import JS BudgetTracker.

Inductive Status : Type := OverBudget | UnderBudget | OnTrack.

(** "variance > 10 -> over-budget, variance < -10 -> under-budget, else on-track". *)
Definition classify (variance : Q) : Status :=
  if Qlt_le_dec 10 variance then OverBudget
  else if Qlt_le_dec variance (-10) then UnderBudget
  else OnTrack.

(** How the component shows each class. *)
Definition colorOf (s : Status) : string :=
  match s with
  | OverBudget => "text-red-500 dark:text-red-400"
  | UnderBudget => "text-green-500 dark:text-green-400"
  | OnTrack => "text-yellow-500 dark:text-yellow-400"
  end.

Definition legacyColorOf (s : Status) : string :=
  match s with
  | OverBudget => "text-red-500"
  | UnderBudget => "text-green-500"
  | OnTrack => "text-yellow-500"
  end.

Definition iconOf (s : Status) : Icon :=
  match s with
  | OverBudget => TrendingUp
  | UnderBudget => TrendingDown
  | OnTrack => AlertTriangle
  end.

End BudgetSpec.

(** ** The specification's wording of a threshold crossing *)

Module AlertSpec.
Import JS Alerts.

(** "below: value < threshold; above: value > threshold". *)
Definition satisfies (c : Condition) (threshold value : Q) : Prop :=
  match c with
  | below => value < threshold
  | above => threshold < value
  | equals => value == threshold
  end.

(** The rising edge of the claim, spelled out for the two conditions it
    names. *)
Definition crossed (a : Alert) (newValue : Q) : Prop :=
  (condition a = below /\ threshold a <= currentValue a /\ newValue < threshold a)
  \/ (condition a = above /\ currentValue a <= threshold a /\ threshold a < newValue).

(** The tick made this alert fire: it called [showNotification] for it,
    or turned it from inactive to active. *)
Definition becameActive (a a' : Alert) : Prop :=
  isActive a = false /\ isActive a' = true.

End AlertSpec.


(** ** The loop variable of [calculateForecast], month by month *)

Module ForecastLoop.
Import JS Dashboard.

Section Loop.
Variable initialData : FinancialBaseline.
Variable headcountState : list HeadcountRole.
Variable params : ForecastParams.

(** The value of [currentBalance] when the iteration for [month] ends
    (before the loop for [month = 0]). *)
Fixpoint currentBalanceAfter (month : nat) : Q :=
  match month with
  | O => bankBalance initialData - oneTimeSpend params
  | S k =>
      currentBalanceAfter k
      - monthlyBurn initialData headcountState params (S k)
  end.

End Loop.

(** [{ ...params, headcount: h }]. *)
Definition withHeadcount (params : ForecastParams) (h : list HeadcountRole)
    : ForecastParams :=
  {| monthlySpend := monthlySpend params; oneTimeSpend := oneTimeSpend params;
     priceIncrease := priceIncrease params; headcount := Some h |}.

End ForecastLoop.

(** ** The headcount editor and the insight feed ([cfo-dashboard.tsx]) *)

Module DashboardState.
Import JS.

(** The two pieces of component state the role editor writes. *)
Record RoleState : Type := {
  headcount : list Dashboard.HeadcountRole;
  scenarioCounter : nat
}.

(** [addRole(role = "", salary = 100000, startMonth = 0)]; [now] is the
    text of [Date.now()].  An omitted argument is [None]. *)
Definition addRole (now : string) (role : option string) (salary : option Q)
    (startMonth : option Q) (s : RoleState) : RoleState :=
  let role := match role with Some r => r | None => ""%string end in
  let salary := match salary with Some x => x | None => 100000 end in
  let startMonth := match startMonth with Some x => x | None => 0 end in
  let newRole :=
    {| Dashboard.id := ("role-" ++ now)%string; Dashboard.role := role;
       Dashboard.salary := salary; Dashboard.startMonth := startMonth |} in
  {| headcount := headcount s ++ [newRole];
     scenarioCounter := S (scenarioCounter s) |}.

Definition removeRole (id : string) (s : RoleState) : RoleState :=
  {| headcount :=
       filter (fun r => negb (String.eqb (Dashboard.id r) id)) (headcount s);
     scenarioCounter := S (scenarioCounter s) |}.

(** The [field] and [value] arguments of [updateRole], together. *)
Inductive RoleField : Type :=
| SetId (value : string)
| SetRole (value : string)
| SetSalary (value : Q)
| SetStartMonth (value : Q).

(** [{ ...role, [field]: value }]. *)
Definition setField (r : Dashboard.HeadcountRole) (f : RoleField)
    : Dashboard.HeadcountRole :=
  match f with
  | SetId v =>
      {| Dashboard.id := v; Dashboard.role := Dashboard.role r;
         Dashboard.salary := Dashboard.salary r;
         Dashboard.startMonth := Dashboard.startMonth r |}
  | SetRole v =>
      {| Dashboard.id := Dashboard.id r; Dashboard.role := v;
         Dashboard.salary := Dashboard.salary r;
         Dashboard.startMonth := Dashboard.startMonth r |}
  | SetSalary v =>
      {| Dashboard.id := Dashboard.id r; Dashboard.role := Dashboard.role r;
         Dashboard.salary := v;
         Dashboard.startMonth := Dashboard.startMonth r |}
  | SetStartMonth v =>
      {| Dashboard.id := Dashboard.id r; Dashboard.role := Dashboard.role r;
         Dashboard.salary := Dashboard.salary r;
         Dashboard.startMonth := v |}
  end.

Definition updateRole (id : string) (f : RoleField) (s : RoleState) : RoleState :=
  {| headcount :=
       map (fun role => if String.eqb (Dashboard.id role) id
                        then setField role f else role)
           (headcount s);
     scenarioCounter := S (scenarioCounter s) |}.

(** [const currentResult = calculateForecast(inputs)]: the inputs carry
    no [headcount] field, so the state is used. *)
Definition currentResult (monthlySpend oneTimeSpend priceIncrease : Q)
    (s : RoleState) : Dashboard.ForecastResult :=
  Dashboard.calculateForecast Dashboard.initialData (headcount s)
    {| Dashboard.monthlySpend := monthlySpend;
       Dashboard.oneTimeSpend := oneTimeSpend;
       Dashboard.priceIncrease := priceIncrease;
       Dashboard.headcount := None |}.

(** *** The insight feed *)

Definition mockInsights : list string :=
  [ "Revenue velocity increased 15% this month";
    "Marketing spend efficiency improved";
    "Customer acquisition costs trending down";
    "Subscription renewals above target";
    "Operating expenses within budget";
    "Cash flow positive trend detected" ]%string.

(** [mockInsights[Math.floor(random * mockInsights.length)]]; an index
    outside the array reads [undefined], here [None]. *)
Definition pickInsight (random : Q) : option string :=
  let index := Qfloor (random * inject_Z (Z.of_nat (List.length mockInsights))) in
  if (index <? 0)%Z then None else nth_error mockInsights (Z.to_nat index).

(** [insight.startsWith(prefix)]. *)
Definition startsWith (insight prefix : string) : bool :=
  String.prefix prefix insight.

(** The updater passed to [setInsights]. *)
Definition pushInsight (newInsight : string) (prev : list string) : list string :=
  let filtered :=
    filter (fun insight => negb (startsWith insight "AI is monitoring")) prev in
  firstn 5 (newInsight :: filtered).

(** The fifteen-second callback, for one reading of [Math.random()]. *)
Definition insightTick (random : Q) (prev : list string) : option (list string) :=
  match pickInsight random with
  | Some newInsight => Some (pushInsight newInsight prev)
  | None => None
  end.

End DashboardState.

(** ** Editing the budget ([enhanced-features/budget-tracker.tsx]) *)

Module BudgetOps.
Import JS BudgetTracker.


Section AddBudgetItem.
(** [Number.parseInt], restricted to texts that denote a finite number,
    and [Date.now().toString()]. *)
Variable parseInt : string -> Q.
Variable nowId : string.

End AddBudgetItem.

(** [{ ...item, actual }]. *)
Definition withActual (item : BudgetItem) (a : Q) : BudgetItem :=
  {| id := id item; category := category item; budgeted := budgeted item;
     actual := a; month := month item |}.

Definition updateActual (i : string) (a : Q) (items : list BudgetItem)
    : list BudgetItem :=
  map (fun item => if String.eqb (id item) i then withActual item a else item)
      items.

Definition removeItem (i : string) (items : list BudgetItem) : list BudgetItem :=
  filter (fun item => negb (String.eqb (id item) i)) items.

End BudgetOps.

(** ** Listing, dismissing and re-running alerts
    ([enhanced-features/alerts-notifications.tsx]) *)

Module AlertOps.
Import JS Alerts.

Definition deleteAlert (alerts : list Alert) (i : string) : list Alert :=
  filter (fun alert => negb (String.eqb (id alert) i)) alerts.

Definition isCritical (t : AlertType) : bool :=
  match t with critical => true | _ => false end.

Definition activeAlerts (alerts : list Alert) : list Alert :=
  filter (fun alert => isActive alert) alerts.

Definition criticalAlerts (alerts : list Alert) : list Alert :=
  filter (fun alert => isCritical (type alert)) (activeAlerts alerts).


End AlertOps.

(** ** Cash-flow categories ([cash-flow-categories.tsx]) *)

Module CashFlow.
Import JS.

Inductive FlowType : Type := inflow | outflow.

Record CashFlowItem : Type := {
  id : string;
  description : string;
  amount : Q;
  category : string;
  type : FlowType;
  date : string;
  recurring : bool
}.



Section AddItem.
(** [Number.parseInt], restricted to texts that denote a finite number,
    and the two readings of the clock. *)
Variable parseInt : string -> Q.
Variable nowId : string.
Variable today : string.

End AddItem.

Definition removeItem (items : list CashFlowItem) (i : string) : list CashFlowItem :=
  filter (fun item => negb (String.eqb (id item) i)) items.

Definition getCategoryTotal (items : list CashFlowItem) (c : string) : Q :=
  fold_left (fun sum item => sum + amount item)
            (filter (fun item => String.eqb (category item) c) items) 0.

Definition getCategoryColor (items : list CashFlowItem) (c : string) : string :=
  let total := getCategoryTotal items c in
  if Qle_bool 0 total then "bg-green-100 text-green-800"%string
  else "bg-red-100 text-red-800"%string.

End CashFlow.

(** ** KPI progress colour ([enhanced-features/kpi-dashboard.tsx]) *)

Module KPI.
Import JS.

(** [x >= k] for a finite [k]; false on [NaN]. *)
Definition ge (x : JSNumber) (k : Q) : bool :=
  match x with
  | Finite a => Qle_bool k a
  | PosInfinity => true
  | NegInfinity => false
  | NaN => false
  end.

Definition getProgressColor (value target : Q) : string :=
  let percentage := mul (div value target) 100 in
  if ge percentage 90 then "bg-green-500 dark:bg-green-400"%string
  else if ge percentage 70 then "bg-yellow-500 dark:bg-yellow-400"%string
  else "bg-red-500 dark:bg-red-400"%string.

End KPI.

(** * Properties of the forecast engine *)

Module ForecastFacts.
Import JS Dashboard ForecastLoop.

Lemma Qltb_lt (x y : Q) : Qltb x y = true <-> x < y.
Proof.
  unfold Qltb. rewrite Qlt_alt.
  destruct (x ?= y); split; congruence.
Qed.

Lemma Qltb_ge (x y : Q) : Qltb x y = false <-> y <= x.
Proof.
  split; intro H.
  - apply Qnot_lt_le. intro L. apply Qltb_lt in L. congruence.
  - destruct (Qltb x y) eqn:E; [|reflexivity].
    apply Qltb_lt in E. apply Qle_not_lt in H. contradiction.
Qed.

Lemma fold_salaries_from (l : list HeadcountRole) (acc : Q) :
  fold_left (fun sum r => sum + salary r) l acc
  == acc + ForecastSpec.totalSalaries l.
Proof.
  revert acc. induction l as [|r l IH]; intro acc; simpl.
  - lra.
  - rewrite IH. lra.
Qed.

Lemma sumSalaries_total (l : list HeadcountRole) :
  sumSalaries l == ForecastSpec.totalSalaries l.
Proof.
  unfold sumSalaries. rewrite fold_salaries_from. lra.
Qed.

Lemma sumSalaries_app (l1 l2 : list HeadcountRole) :
  sumSalaries (l1 ++ l2) == sumSalaries l1 + sumSalaries l2.
Proof.
  rewrite !sumSalaries_total.
  induction l1 as [|r l1 IH]; simpl; [lra | rewrite IH; lra].
Qed.

Lemma sumSalaries_cons (r : HeadcountRole) (l : list HeadcountRole) :
  sumSalaries (r :: l) == salary r + sumSalaries l.
Proof. rewrite !sumSalaries_total. simpl. lra. Qed.

Section Engine.
Variable base : FinancialBaseline.
Variable st : list HeadcountRole.
Variable params : ForecastParams.

Lemma headcountCost_spec (m : nat) :
  monthlyHeadcountCost st params m
  == ForecastSpec.headcountCostBefore (localHeadcount st params) m.
Proof.
  unfold monthlyHeadcountCost.
  induction (localHeadcount st params) as [|r l IH]; simpl.
  - reflexivity.
  - destruct (Qlt_le_dec (startMonth r) (Qnat m)) as [L|G].
    + apply Qltb_lt in L. rewrite L, sumSalaries_cons, IH. reflexivity.
    + apply Qltb_ge in G. rewrite G, IH. lra.
Qed.

Lemma monthlyBurn_spec (m : nat) :
  monthlyBurn base st params m
  == ForecastSpec.monthlyBurn base params (localHeadcount st params) m.
Proof.
  unfold monthlyBurn, ForecastSpec.monthlyBurn, effectiveRevenue,
    ForecastSpec.effectiveRevenue.
  rewrite headcountCost_spec. reflexivity.
Qed.

Lemma currentBalance_spec (m : nat) :
  currentBalanceAfter base st params m
  == ForecastSpec.balance base params (localHeadcount st params) m.
Proof.
  induction m as [|k IH]; simpl.
  - reflexivity.
  - rewrite IH, monthlyBurn_spec. reflexivity.
Qed.

(** The loop, run for [n] months from month 1. *)
Lemma loop_unrolled (n : nat) :
  let b0 := bankBalance base - oneTimeSpend params in
  fold_left (forecastStep base st params) (seq 1 n) (b0, [b0])
  = (currentBalanceAfter base st params n,
     b0 :: map (fun k => Math_max 0 (currentBalanceAfter base st params k))
               (seq 1 n)).
Proof.
  intro b0. induction n as [|n IH].
  - reflexivity.
  - rewrite seq_S, fold_left_app, IH, map_app. reflexivity.
Qed.

Lemma forecastData_unrolled :
  forecastData (calculateForecast base st params)
  = (bankBalance base - oneTimeSpend params)
    :: map (fun k => Math_max 0 (currentBalanceAfter base st params k))
           (seq 1 24).
Proof.
  unfold calculateForecast, for_range.
  change (25 - 1)%nat with 24%nat.
  rewrite loop_unrolled. reflexivity.
Qed.

Lemma forecastData_length :
  List.length (forecastData (calculateForecast base st params)) = 25%nat.
Proof.
  rewrite forecastData_unrolled. cbn [List.length].
  rewrite length_map, length_seq. reflexivity.
Qed.

Lemma forecastData_month0 :
  nth_error (forecastData (calculateForecast base st params)) 0
  = Some (bankBalance base - oneTimeSpend params).
Proof. rewrite forecastData_unrolled. reflexivity. Qed.

Lemma forecastData_month (m : nat) :
  (1 <= m <= 24)%nat ->
  nth_error (forecastData (calculateForecast base st params)) m
  = Some (Math_max 0 (currentBalanceAfter base st params m)).
Proof.
  intros [Hlo Hhi]. rewrite forecastData_unrolled.
  destruct m as [|k]; [lia|]. cbn [nth_error].
  rewrite nth_error_map, nth_error_seq.
  destruct (Nat.ltb_spec k 24) as [_|]; [|lia].
  reflexivity.
Qed.

Lemma forecastData_later_nonneg (m : nat) (v : Q) :
  (1 <= m)%nat ->
  nth_error (forecastData (calculateForecast base st params)) m = Some v ->
  0 <= v.
Proof.
  intros Hm Hv.
  assert (m < 25)%nat as Hlt.
  { rewrite <- forecastData_length. apply nth_error_Some. congruence. }
  rewrite forecastData_month in Hv by lia.
  injection Hv as <-. apply Q.le_max_l.
Qed.

End Engine.

(** The worked example of the component's base case: a burn of 400,000,
    a runway of 12.5 months, and 4,600,000 left after month 1. *)
Example base_case :
  burn (baseResult []) == 400000
  /\ (exists q, runway (baseResult []) = Finite q /\ q == 25 # 2)
  /\ (exists v, nth_error (forecastData (baseResult [])) 1 = Some v
                /\ v == 4600000).
Proof.
  split; [reflexivity|].
  split; eexists; split; reflexivity.
Qed.

(** *** The recurrence *)

(** Claim C1.  For every baseline, inputs record and headcount list, and
    every month [m] from 1 to 24, entry [m] of [forecastData] is
    [max(0, balance m)], where the unclamped [balance] starts at
    [bankBalance - oneTimeSpend] and loses, each month, [monthlyCosts +
    monthlySpend + (salaries of the roles with startMonth < m) -
    monthlyRevenue * (1 + priceIncrease / 100)]. *)
Theorem forecast_recurrence
    (base : FinancialBaseline) (st : list HeadcountRole)
    (params : ForecastParams) (m : nat) :
  (1 <= m <= 24)%nat ->
  exists v,
    nth_error (forecastData (calculateForecast base st params)) m = Some v
    /\ v == Qmax 0 (ForecastSpec.balance base params (localHeadcount st params) m).
Proof.
  intro Hm. eexists. split.
  - apply forecastData_month. exact Hm.
  - unfold Math_max. apply Q.max_compat; [reflexivity|].
    apply currentBalance_spec.
Qed.

Lemma forecast_recurrence_witness :
  let hire := {| id := "role-1"; role := "designer"; salary := 100000;
                 startMonth := 3 |} in
  let params := {| monthlySpend := 50000; oneTimeSpend := 200000;
                   priceIncrease := 10; headcount := Some [hire] |} in
  (1 <= 4 <= 24)%nat
  /\ exists v,
       nth_error (forecastData (calculateForecast initialData [] params)) 4 = Some v
       /\ v == Qmax 0 (ForecastSpec.balance initialData params
                         (localHeadcount [] params) 4).
Proof.
  intros hire params. split; [lia|].
  apply (forecast_recurrence initialData [] params 4). lia.
Defined.

(** *** Month 0 *)

(** Claim C2 (the code departs from it).  With a one-time spend of
    6,000,000 against the bank balance of 5,000,000 the first entry of
    [forecastData] is -1,000,000: the seed of the series is pushed as it
    is, and is not [max(0, bankBalance - oneTimeSpend)], which is 0. *)
Theorem month0_not_floored :
  let params := {| monthlySpend := 0; oneTimeSpend := 6000000;
                   priceIncrease := 0; headcount := None |} in
  exists v,
    nth_error (forecastData (calculateForecast initialData [] params)) 0 = Some v
    /\ v == -1000000
    /\ Qmax 0 (bankBalance initialData - oneTimeSpend params) == 0
    /\ ~ v == Qmax 0 (bankBalance initialData - oneTimeSpend params).
Proof.
  intro params. eexists. split; [apply forecastData_month0|].
  repeat split; try reflexivity.
  intro H. vm_compute in H. discriminate H.
Qed.

(** Claim C3 (the code departs from it).  The series has 25 entries, but
    not every entry is non-negative: with a one-time spend of 6,000,000
    the month-0 entry is below zero.  (Months 1 to 24 are never negative:
    [forecastData_later_nonneg].) *)
Theorem month0_entry_can_be_negative :
  let params := {| monthlySpend := 0; oneTimeSpend := 6000000;
                   priceIncrease := 0; headcount := None |} in
  let series := forecastData (calculateForecast initialData [] params) in
  List.length series = 25%nat
  /\ exists v, nth_error series 0 = Some v /\ v < 0.
Proof.
  intros params series. split.
  - apply forecastData_length.
  - eexists. split; [apply forecastData_month0|]. reflexivity.
Qed.

(** *** Headcount *)

Section Headcount.
Variable base : FinancialBaseline.
Variable st : list HeadcountRole.
Variable params : ForecastParams.
Variables before after : list HeadcountRole.
Variable r : HeadcountRole.
Hypothesis Hroles : localHeadcount st params = before ++ r :: after.

Lemma headcountCost_with_role (m : nat) :
  monthlyHeadcountCost st params m
  == monthlyHeadcountCost st (withHeadcount params (before ++ after)) m
     + (if Qltb (startMonth r) (Qnat m) then salary r else 0).
Proof.
  unfold monthlyHeadcountCost. rewrite Hroles.
  change (localHeadcount st (withHeadcount params (before ++ after)))
    with (before ++ after).
  rewrite !filter_app, !sumSalaries_app. cbn [filter].
  destruct (Qltb (startMonth r) (Qnat m)).
  - rewrite sumSalaries_cons. lra.
  - lra.
Qed.

Lemma monthlyBurn_with_role (m : nat) :
  monthlyBurn base st params m
  == monthlyBurn base st (withHeadcount params (before ++ after)) m
     + (if Qltb (startMonth r) (Qnat m) then salary r else 0).
Proof.
  unfold monthlyBurn. rewrite headcountCost_with_role.
  unfold effectiveRevenue. cbn [withHeadcount monthlySpend priceIncrease].
  lra.
Qed.

End Headcount.

(** Claim C4.  A role's salary is part of the burn of month [m] exactly
    when its [startMonth] is strictly below [m]: compared with the same
    list without the role, the burn of month [m] is higher by the salary
    when [startMonth < m] and equal otherwise.  A role with [startMonth =
    3] is therefore left out of the burn behind [forecastData[3]] and
    counted in the burn behind [forecastData[4]].  The burn of month [m]
    is the one subtracted to obtain entry [m] of the series. *)
Theorem headcount_counts_after_start_month
    (base : FinancialBaseline) (st : list HeadcountRole)
    (params : ForecastParams) (before after : list HeadcountRole)
    (r : HeadcountRole) :
  localHeadcount st params = before ++ r :: after ->
  let without := withHeadcount params (before ++ after) in
  (forall m, startMonth r < Qnat m ->
     monthlyBurn base st params m == monthlyBurn base st without m + salary r)
  /\ (forall m, ~ startMonth r < Qnat m ->
       monthlyBurn base st params m == monthlyBurn base st without m)
  /\ (startMonth r == 3 ->
       monthlyBurn base st params 3 == monthlyBurn base st without 3
       /\ monthlyBurn base st params 4
          == monthlyBurn base st without 4 + salary r)
  /\ (forall m, (1 <= m <= 24)%nat ->
       nth_error (forecastData (calculateForecast base st params)) m
       = Some (Math_max 0 (currentBalanceAfter base st params (m - 1)
                           - monthlyBurn base st params m))).
Proof.
  intros Hroles without.
  assert (Hin : forall m, startMonth r < Qnat m ->
            monthlyBurn base st params m
            == monthlyBurn base st without m + salary r).
  { intros m L. rewrite (monthlyBurn_with_role base st params before after r Hroles).
    apply Qltb_lt in L. rewrite L. reflexivity. }
  assert (Hout : forall m, ~ startMonth r < Qnat m ->
            monthlyBurn base st params m == monthlyBurn base st without m).
  { intros m G. rewrite (monthlyBurn_with_role base st params before after r Hroles).
    destruct (Qltb (startMonth r) (Qnat m)) eqn:E.
    - apply Qltb_lt in E. contradiction.
    - fold without. lra. }
  repeat split.
  - exact Hin.
  - exact Hout.
  - apply Hout. rewrite H. vm_compute. discriminate.
  - apply Hin. rewrite H. reflexivity.
  - intros m Hm. rewrite forecastData_month by exact Hm.
    destruct m as [|k]; [lia|].
    replace (S k - 1)%nat with k by lia. reflexivity.
Qed.

Lemma headcount_counts_after_start_month_witness :
  let hire := {| id := "role-1"; role := "designer"; salary := 100000;
                 startMonth := 3 |} in
  let other := {| id := "role-2"; role := "analyst"; salary := 70000;
                  startMonth := 0 |} in
  let params := {| monthlySpend := 0; oneTimeSpend := 0; priceIncrease := 0;
                   headcount := Some [other; hire] |} in
  let without := withHeadcount params [other] in
  monthlyBurn initialData [] params 3 == monthlyBurn initialData [] without 3
  /\ monthlyBurn initialData [] params 4
     == monthlyBurn initialData [] without 4 + 100000.
Proof.
  intros hire other params without.
  apply (headcount_counts_after_start_month initialData [] params
           [other] [] hire eq_refl).
  reflexivity.
Defined.

(** Claim C5.  The [burn] field is [monthlyCosts + monthlySpend + (the
    salaries of all roles) - monthlyRevenue * (1 + priceIncrease / 100)]:
    no role is filtered out by its start month, so a role raises the
    figure by its salary whatever its [startMonth]. *)
Theorem display_burn_sums_all_roles
    (base : FinancialBaseline) (st : list HeadcountRole)
    (params : ForecastParams) :
  burn (calculateForecast base st params)
  == monthlyCosts base + monthlySpend params
     + ForecastSpec.totalSalaries (localHeadcount st params)
     - monthlyRevenue base * (1 + priceIncrease params / 100)
  /\ forall (before after : list HeadcountRole) (r : HeadcountRole),
       burn (calculateForecast base st (withHeadcount params (before ++ r :: after)))
       == burn (calculateForecast base st (withHeadcount params (before ++ after)))
          + salary r.
Proof.
  assert (Hburn : forall p,
            burn (calculateForecast base st p)
            = monthlyCosts base + monthlySpend p + sumSalaries (localHeadcount st p)
              - monthlyRevenue base * (1 + priceIncrease p / 100)).
  { intro p. unfold calculateForecast.
    destruct (for_range 1 25 _ _). reflexivity. }
  split.
  - rewrite Hburn, sumSalaries_total. reflexivity.
  - intros before after r. rewrite !Hburn.
    change (localHeadcount st (withHeadcount params (before ++ r :: after)))
      with (before ++ r :: after).
    change (localHeadcount st (withHeadcount params (before ++ after)))
      with (before ++ after).
    rewrite !sumSalaries_app, sumSalaries_cons. cbn [withHeadcount monthlySpend priceIncrease].
    lra.
Qed.

(** *** Runway *)

Lemma burn_unfolded
    (base : FinancialBaseline) (st : list HeadcountRole) (p : ForecastParams) :
  burn (calculateForecast base st p)
  = monthlyCosts base + monthlySpend p + sumSalaries (localHeadcount st p)
    - monthlyRevenue base * (1 + priceIncrease p / 100).
Proof.
  unfold calculateForecast. destruct (for_range 1 25 _ _). reflexivity.
Qed.

Lemma runway_unfolded
    (base : FinancialBaseline) (st : list HeadcountRole) (p : ForecastParams) :
  runway (calculateForecast base st p)
  = if Qltb 0 (burn (calculateForecast base st p))
    then div (bankBalance base - oneTimeSpend p) (burn (calculateForecast base st p))
    else PosInfinity.
Proof.
  unfold calculateForecast. destruct (for_range 1 25 _ _). reflexivity.
Qed.

Lemma div_by_positive (a b : Q) : 0 < b -> div a b = Finite (a / b).
Proof.
  intro Hb. unfold div.
  destruct (Qeq_bool b 0) eqn:E; [|reflexivity].
  apply Qeq_bool_eq in E. lra.
Qed.

(** Claim C6.  The [runway] field is [(bankBalance - oneTimeSpend) / burn]
    when [burn > 0] and positive infinity when [burn <= 0]; the guard
    keeps the division away from a zero divisor, so the result is never
    [NaN].  With no headcount and an effective revenue above [monthlyCosts
    + monthlySpend] the runway is positive infinity. *)
Theorem runway_guarded
    (base : FinancialBaseline) (st : list HeadcountRole)
    (params : ForecastParams) :
  let result := calculateForecast base st params in
  (0 < burn result ->
     runway result
     = Finite ((bankBalance base - oneTimeSpend params) / burn result))
  /\ (burn result <= 0 -> runway result = PosInfinity)
  /\ runway result <> NaN
  /\ (localHeadcount st params = [] ->
      monthlyCosts base + monthlySpend params < effectiveRevenue base params ->
      runway result = PosInfinity).
Proof.
  intro result. subst result.
  assert (Hpos : 0 < burn (calculateForecast base st params) ->
            runway (calculateForecast base st params)
            = Finite ((bankBalance base - oneTimeSpend params)
                      / burn (calculateForecast base st params))).
  { intro Hb. rewrite runway_unfolded.
    pose proof Hb as Hb'. apply Qltb_lt in Hb'. rewrite Hb'.
    apply div_by_positive. exact Hb. }
  assert (Hneg : burn (calculateForecast base st params) <= 0 ->
            runway (calculateForecast base st params) = PosInfinity).
  { intro Hb. rewrite runway_unfolded.
    apply Qltb_ge in Hb. rewrite Hb. reflexivity. }
  repeat split.
  - exact Hpos.
  - exact Hneg.
  - destruct (Qlt_le_dec 0 (burn (calculateForecast base st params))) as [L|G].
    + rewrite (Hpos L). discriminate.
    + rewrite (Hneg G). discriminate.
  - intros Hnil Hrev. apply Hneg.
    rewrite burn_unfolded, Hnil. unfold effectiveRevenue in Hrev.
    cbn [sumSalaries fold_left]. lra.
Qed.

Lemma runway_guarded_witness :
  let params := {| monthlySpend := 0; oneTimeSpend := 0; priceIncrease := 0;
                   headcount := Some [] |} in
  let boosted := {| monthlySpend := 100000; oneTimeSpend := 0;
                    priceIncrease := 75; headcount := Some [] |} in
  runway (calculateForecast initialData [] params)
  = Finite ((5000000 - 0) / burn (calculateForecast initialData [] params))
  /\ runway (calculateForecast initialData [] boosted) = PosInfinity.
Proof.
  intros params boosted. split.
  - apply (runway_guarded initialData [] params). reflexivity.
  - apply (runway_guarded initialData [] boosted); reflexivity.
Defined.

(** *** Monotone decline *)

Section Decline.
Variable base : FinancialBaseline.
Variable st : list HeadcountRole.
Variable params : ForecastParams.
Hypothesis Hspend : monthlySpend params == 0.
Hypothesis Honce : oneTimeSpend params == 0.
Hypothesis Hprice : priceIncrease params == 0.
Hypothesis Hnone : localHeadcount st params = [].
Hypothesis Hloss : monthlyRevenue base < monthlyCosts base.
Hypothesis Hcash : 0 <= bankBalance base.

Lemma plain_burn (m : nat) :
  monthlyBurn base st params m == monthlyCosts base - monthlyRevenue base.
Proof.
  unfold monthlyBurn, monthlyHeadcountCost, effectiveRevenue.
  rewrite Hnone, Hspend, Hprice. cbn [filter sumSalaries fold_left].
  field.
Qed.

Lemma balance_declines (i j : nat) :
  (i <= j)%nat ->
  currentBalanceAfter base st params j <= currentBalanceAfter base st params i.
Proof.
  induction 1 as [|j _ IH].
  - lra.
  - cbn [currentBalanceAfter]. rewrite plain_burn. lra.
Qed.

Lemma balance_starts_nonneg : 0 <= currentBalanceAfter base st params 0.
Proof. cbn [currentBalanceAfter]. lra. Qed.

Lemma series_entry (i : nat) (x : Q) :
  nth_error (forecastData (calculateForecast base st params)) i = Some x ->
  (i = 0%nat /\ x = currentBalanceAfter base st params 0)
  \/ ((1 <= i <= 24)%nat /\ x = Qmax 0 (currentBalanceAfter base st params i)).
Proof.
  intro Hx.
  assert (i < 25)%nat as Hlt.
  { rewrite <- (forecastData_length base st params).
    apply nth_error_Some. congruence. }
  destruct i as [|k].
  - left. rewrite forecastData_month0 in Hx. injection Hx as <-. auto.
  - right. rewrite forecastData_month in Hx by lia.
    injection Hx as <-. split; [lia | reflexivity].
Qed.

Lemma declining_series :
  ForecastSpec.nonIncreasing (forecastData (calculateForecast base st params))
  /\ ForecastSpec.staysAtZero (forecastData (calculateForecast base st params)).
Proof.
  split.
  - intros i x y Hx Hy.
    pose proof (balance_declines i (S i) ltac:(lia)) as Hd.
    apply series_entry in Hy. destruct Hy as [[Hy _]|[_ ->]]; [discriminate|].
    apply series_entry in Hx. destruct Hx as [[-> ->]|[_ ->]].
    + apply Q.max_lub; [apply balance_starts_nonneg | exact Hd].
    + apply Q.max_le_compat_l. exact Hd.
  - intros i j x y Hij Hx Hy Hzero.
    pose proof (balance_declines i j ltac:(lia)) as Hd.
    apply series_entry in Hy. destruct Hy as [[-> _]|[_ ->]]; [lia|].
    apply Q.max_l.
    apply series_entry in Hx. destruct Hx as [[-> ->]|[_ ->]].
    + lra.
    + pose proof (Q.le_max_r 0 (currentBalanceAfter base st params i)). lra.
Qed.

End Decline.

(** Claim C7.  With [monthlySpend = oneTimeSpend = priceIncrease = 0], no
    headcount, and the component's baseline, whose monthly costs exceed
    its monthly revenue, the series never rises from one month to the
    next, and after an entry equal to 0 every entry is 0. *)
Theorem forecast_declines_to_zero
    (st : list HeadcountRole) (params : ForecastParams) :
  monthlySpend params == 0 ->
  oneTimeSpend params == 0 ->
  priceIncrease params == 0 ->
  localHeadcount st params = [] ->
  monthlyRevenue initialData < monthlyCosts initialData ->
  ForecastSpec.nonIncreasing (forecastData (calculateForecast initialData st params))
  /\ ForecastSpec.staysAtZero (forecastData (calculateForecast initialData st params)).
Proof.
  intros Hspend Honce Hprice Hnone Hloss.
  apply declining_series; try assumption.
  vm_compute. discriminate.
Qed.

Lemma forecast_declines_to_zero_witness :
  let params := {| monthlySpend := 0; oneTimeSpend := 0; priceIncrease := 0;
                   headcount := Some [] |} in
  ForecastSpec.nonIncreasing (forecastData (calculateForecast initialData [] params))
  /\ ForecastSpec.staysAtZero (forecastData (calculateForecast initialData [] params)).
Proof.
  intro params.
  apply (forecast_declines_to_zero [] params); reflexivity.
Defined.

End ForecastFacts.

(** * Properties of the budget tracker *)

Module BudgetFacts.
Import JS BudgetTracker.
Import ForecastFacts.

Lemma variance_finite (budgeted actual : Q) :
  ~ budgeted == 0 ->
  variance budgeted actual = Finite ((actual - budgeted) / budgeted * 100).
Proof.
  intro Hb. unfold variance, div.
  destruct (Qeq_bool budgeted 0) eqn:E.
  - apply Qeq_bool_eq in E. contradiction.
  - reflexivity.
Qed.

Lemma classify_over (v : Q) :
  BudgetSpec.classify v = BudgetSpec.OverBudget <-> 10 < v.
Proof.
  unfold BudgetSpec.classify.
  destruct (Qlt_le_dec 10 v); [|destruct (Qlt_le_dec v (-10))];
    split; intro H; try discriminate; try reflexivity; try assumption; lra.
Qed.

Lemma classify_under (v : Q) :
  BudgetSpec.classify v = BudgetSpec.UnderBudget <-> v < -10.
Proof.
  unfold BudgetSpec.classify.
  destruct (Qlt_le_dec 10 v); [|destruct (Qlt_le_dec v (-10))];
    split; intro H; try discriminate; try reflexivity; try assumption; lra.
Qed.

Lemma classify_on_track (v : Q) :
  BudgetSpec.classify v = BudgetSpec.OnTrack <-> -10 <= v /\ v <= 10.
Proof.
  unfold BudgetSpec.classify.
  destruct (Qlt_le_dec 10 v); [|destruct (Qlt_le_dec v (-10))];
    split; intro H; try discriminate; try reflexivity; lra.
Qed.

(** The three-way test of the component, on a finite variance. *)
Lemma three_way {A : Type} (v : Q) (over under onTrack : A) :
  (if gt (Finite v) 10 then over
   else if lt (Finite v) (-10) then under else onTrack)
  = match BudgetSpec.classify v with
    | BudgetSpec.OverBudget => over
    | BudgetSpec.UnderBudget => under
    | BudgetSpec.OnTrack => onTrack
    end.
Proof.
  unfold gt, lt, BudgetSpec.classify.
  destruct (Qlt_le_dec 10 v) as [L|G].
  - apply Qltb_lt in L. rewrite L. reflexivity.
  - apply Qltb_ge in G. rewrite G.
    destruct (Qlt_le_dec v (-10)) as [L'|G'].
    + apply Qltb_lt in L'. rewrite L'. reflexivity.
    + apply Qltb_ge in G'. rewrite G'. reflexivity.
Qed.

(** Claim C8.  For [budgeted <> 0] the variance is the finite number
    [(actual - budgeted) / budgeted * 100], and the colour and the icon
    (in both copies of the component) are those of the over-budget class
    exactly when the variance is above 10, of the under-budget class
    exactly when it is below -10, and of the on-track class otherwise, the
    values 10 and -10 included. *)
Theorem variance_classification (budgeted actual : Q) :
  ~ budgeted == 0 ->
  exists v : Q,
    variance budgeted actual = Finite v
    /\ v == (actual - budgeted) / budgeted * 100
    /\ v * budgeted == (actual - budgeted) * 100
    /\ getVarianceColor budgeted actual = BudgetSpec.colorOf (BudgetSpec.classify v)
    /\ getVarianceIcon budgeted actual = BudgetSpec.iconOf (BudgetSpec.classify v)
    /\ Legacy.getVarianceColor budgeted actual
       = BudgetSpec.legacyColorOf (BudgetSpec.classify v)
    /\ (BudgetSpec.classify v = BudgetSpec.OverBudget <-> 10 < v)
    /\ (BudgetSpec.classify v = BudgetSpec.UnderBudget <-> v < -10)
    /\ (BudgetSpec.classify v = BudgetSpec.OnTrack <-> -10 <= v /\ v <= 10).
Proof.
  intro Hb. exists ((actual - budgeted) / budgeted * 100).
  split; [apply variance_finite; exact Hb|].
  split; [reflexivity|].
  split; [field; exact Hb|].
  unfold getVarianceColor, getVarianceIcon, Legacy.getVarianceColor.
  rewrite (variance_finite _ _ Hb), !three_way.
  split; [destruct (BudgetSpec.classify _); reflexivity|].
  split; [destruct (BudgetSpec.classify _); reflexivity|].
  split; [destruct (BudgetSpec.classify _); reflexivity|].
  split; [apply classify_over|].
  split; [apply classify_under | apply classify_on_track].
Qed.

Lemma variance_classification_witness :
  exists v : Q,
    variance 100 110 = Finite v
    /\ v == 10
    /\ getVarianceColor 100 110 = "text-yellow-500 dark:text-yellow-400"%string.
Proof.
  destruct (variance_classification 100 110) as (v & Hv & Heq & _ & Hcolor & _).
  - vm_compute. discriminate.
  - exists v. split; [exact Hv|]. split.
    + rewrite Heq. reflexivity.
    + reflexivity.
Defined.

End BudgetFacts.

(** * Properties of the alert simulation *)

Module AlertFacts.
Import JS Alerts.
Import ForecastFacts.

Lemma thresholdCrossed_spec (a : Alert) (newValue : Q) :
  thresholdCrossed a newValue = true <-> AlertSpec.crossed a newValue.
Proof.
  unfold thresholdCrossed, AlertSpec.crossed, Qgeb, Qleb.
  rewrite orb_true_iff, !andb_true_iff, !Qltb_lt, !Qle_bool_iff.
  destruct (condition a); cbn [conditionIs];
    intuition (try discriminate; try congruence).
Qed.

(** A crossing is a rising edge: the old value does not satisfy the
    condition and the new one does. *)
Lemma crossed_is_rising_edge (a : Alert) (newValue : Q) :
  AlertSpec.crossed a newValue ->
  ~ AlertSpec.satisfies (condition a) (threshold a) (currentValue a)
  /\ AlertSpec.satisfies (condition a) (threshold a) newValue.
Proof.
  intros [(-> & Hold & Hnew)|(-> & Hold & Hnew)]; cbn [AlertSpec.satisfies];
    split; lra.
Qed.

(** What one call of the [map] callback does to the alert and to the
    world. *)
Lemma tickAlert_result (a : Alert) (w : World) :
  let newValue := newValueOf a (randomSource w (randomCalls w)) in
  let fires := thresholdCrossed a newValue && negb (isActive a) in
  exists sent : list Event,
    tickAlert a w
    = (if fires then withIsActive (withCurrentValue a newValue) true
       else withCurrentValue a newValue,
       {| hasNotification := hasNotification w; permission := permission w;
          randomSource := randomSource w; randomCalls := S (randomCalls w);
          events := events w ++ sent |})
    /\ (sent <> [] -> fires = true /\ pushNotifications a = true).
Proof.
  intros newValue fires. unfold tickAlert, bind, Math_random.
  fold newValue. fold fires.
  destruct fires eqn:Hfires.
  - destruct (pushNotifications a) eqn:Hpush.
    + unfold showNotification, emit, ret. cbn [hasNotification permission].
      destruct (hasNotification w); [destruct (permission w)|].
      * eexists. split; [reflexivity | auto].
      * exists []. rewrite app_nil_r. split; [reflexivity | congruence].
      * eexists. split; [reflexivity | auto].
      * exists []. rewrite app_nil_r. split; [reflexivity | congruence].
    + exists []. rewrite app_nil_r. split; [reflexivity | congruence].
  - exists []. rewrite app_nil_r. split; [reflexivity | congruence].
Qed.

(** The relation between an alert before and after its callback. *)
Lemma tickAlert_step (a a' : Alert) (w w' : World) :
  tickAlert a w = (a', w') ->
  (AlertSpec.becameActive a a' -> AlertSpec.crossed a (currentValue a'))
  /\ (isActive a' <> isActive a -> AlertSpec.becameActive a a')
  /\ exists sent,
       events w' = events w ++ sent
       /\ (sent <> [] ->
           AlertSpec.becameActive a a'
           /\ AlertSpec.crossed a (currentValue a')
           /\ pushNotifications a = true).
Proof.
  intro Hrun.
  destruct (tickAlert_result a w) as (sent & Heq & Hsent).
  rewrite Hrun in Heq.
  set (newValue := newValueOf a (randomSource w (randomCalls w))) in *.
  destruct (thresholdCrossed a newValue && negb (isActive a)) eqn:Hfires;
    injection Heq as -> ->; cbn [events currentValue withIsActive withCurrentValue].
  - apply andb_true_iff in Hfires. destruct Hfires as [Hcross Hidle].
    apply thresholdCrossed_spec in Hcross.
    apply negb_true_iff in Hidle.
    assert (Hact : AlertSpec.becameActive a
                     (withIsActive (withCurrentValue a newValue) true)).
    { split; [exact Hidle | reflexivity]. }
    split; [intros _; exact Hcross|].
    split; [intros _; exact Hact|].
    exists sent. split; [reflexivity|]. intro Hne.
    destruct (Hsent Hne) as [_ Hpush].
    split; [exact Hact|]. split; assumption.
  - split; [intros [Hoff Hon]; cbn in Hon; congruence|].
    split; [intro Hne; cbn in Hne; congruence|].
    exists sent. split; [reflexivity|]. intro Hne.
    destruct (Hsent Hne) as [Hcontra _]. discriminate Hcontra.
Qed.

Lemma tick_steps (prevAlerts : list Alert) :
  forall (w : World) (alerts' : list Alert) (w' : World),
  tick prevAlerts w = (alerts', w') ->
  List.length alerts' = List.length prevAlerts
  /\ (forall a a', In (a, a') (combine prevAlerts alerts') ->
       (AlertSpec.becameActive a a' -> AlertSpec.crossed a (currentValue a'))
       /\ (isActive a' <> isActive a -> AlertSpec.becameActive a a'))
  /\ exists sent,
       events w' = events w ++ sent
       /\ forall e, In e sent ->
            exists a a',
              In (a, a') (combine prevAlerts alerts')
              /\ AlertSpec.becameActive a a'
              /\ AlertSpec.crossed a (currentValue a')
              /\ pushNotifications a = true.
Proof.
  unfold tick.
  induction prevAlerts as [|a rest IH]; intros w alerts' w' Hrun.
  - injection Hrun as <- <-. split; [reflexivity|].
    split; [intros ? ? []|].
    exists []. rewrite app_nil_r. split; [reflexivity | intros ? []].
  - cbn [mapM] in Hrun. unfold bind at 1 in Hrun.
    destruct (tickAlert a w) as [a1 w1] eqn:Hhead.
    unfold bind at 1 in Hrun.
    destruct (mapM tickAlert rest w1) as [rest1 w2] eqn:Htail.
    unfold ret in Hrun. injection Hrun as <- <-.
    destruct (tickAlert_step _ _ _ _ Hhead) as (Hact & Hflip & sent1 & Hev1 & Hsent1).
    destruct (IH _ _ _ Htail) as (Hlen & Hpairs & sent2 & Hev2 & Hsent2).
    split; [cbn [List.length]; congruence|].
    split.
    + intros b b' [Heq|Hin].
      * injection Heq as <- <-. split; assumption.
      * apply Hpairs. exact Hin.
    + exists (sent1 ++ sent2). split.
      * rewrite Hev2, Hev1, app_assoc. reflexivity.
      * intros e Hin. apply in_app_or in Hin. destruct Hin as [Hin|Hin].
        -- exists a, a1. split; [left; reflexivity|].
           apply Hsent1. intro Hnil. rewrite Hnil in Hin. exact Hin.
        -- destruct (Hsent2 e Hin) as (b & b' & Hb & Hrest).
           exists b, b'. split; [right; exact Hb | exact Hrest].
Qed.

(** Claim C9.  In a simulation tick an alert fires — turns from inactive
    to active, or has a notification sent for it — only if its value
    crossed the threshold on this tick: for [below] the old value was
    [>= threshold] and the new one is [< threshold], for [above] the old
    value was [<= threshold] and the new one is [> threshold].  So the
    old value did not satisfy the condition and the new one does; an alert
    whose old value already satisfied its condition keeps its [isActive]
    flag. *)
Theorem tick_fires_only_on_crossing
    (prevAlerts : list Alert) (w : World)
    (alerts' : list Alert) (w' : World) :
  tick prevAlerts w = (alerts', w') ->
  List.length alerts' = List.length prevAlerts
  /\ (forall a a', In (a, a') (combine prevAlerts alerts') ->
       AlertSpec.becameActive a a' ->
       AlertSpec.crossed a (currentValue a')
       /\ ~ AlertSpec.satisfies (condition a) (threshold a) (currentValue a)
       /\ AlertSpec.satisfies (condition a) (threshold a) (currentValue a'))
  /\ (forall a a', In (a, a') (combine prevAlerts alerts') ->
       AlertSpec.satisfies (condition a) (threshold a) (currentValue a) ->
       isActive a' = isActive a)
  /\ exists sent,
       events w' = events w ++ sent
       /\ forall e, In e sent ->
            exists a a',
              In (a, a') (combine prevAlerts alerts')
              /\ AlertSpec.becameActive a a'
              /\ AlertSpec.crossed a (currentValue a')
              /\ pushNotifications a = true.
Proof.
  intro Hrun.
  destruct (tick_steps _ _ _ _ Hrun) as (Hlen & Hpairs & Hsent).
  split; [exact Hlen|]. split; [|split; [|exact Hsent]].
  - intros a a' Hin Hact.
    destruct (Hpairs a a' Hin) as [Hcross _].
    specialize (Hcross Hact). split; [exact Hcross|].
    apply crossed_is_rising_edge. exact Hcross.
  - intros a a' Hin Hsat.
    destruct (Hpairs a a' Hin) as [Hcross Hflip].
    destruct (bool_dec (isActive a') (isActive a)) as [Heq|Hne]; [exact Heq|].
    specialize (Hflip Hne). specialize (Hcross Hflip).
    apply crossed_is_rising_edge in Hcross. destruct Hcross as [Hnot _].
    contradiction.
Qed.

Lemma tick_fires_only_on_crossing_witness :
  let alert := {| id := "1"; title := "Critical Cash Runway";
                  description := "Cash runway below 3 months";
                  type := critical; threshold := 3; currentValue := 3;
                  isActive := false; createdAt := "2024-01-15";
                  metric := runway; condition := below;
                  emailNotifications := true; pushNotifications := true |} in
  let w := {| hasNotification := true; permission := granted;
              randomSource := fun _ => 0; randomCalls := 0; events := [] |} in
  let alerts' := fst (tick [alert] w) in
  let w' := snd (tick [alert] w) in
  tick [alert] w = (alerts', w')
  /\ (forall a a', In (a, a') (combine [alert] alerts') ->
       AlertSpec.becameActive a a' ->
       AlertSpec.crossed a (currentValue a')
       /\ ~ AlertSpec.satisfies (condition a) (threshold a) (currentValue a)
       /\ AlertSpec.satisfies (condition a) (threshold a) (currentValue a')).
Proof.
  intros alert w alerts' w'.
  split; [reflexivity|].
  apply (tick_fires_only_on_crossing [alert] w alerts' w').
  reflexivity.
Defined.

(** Claim C10.  For an alert whose condition is [equals] the
    threshold-crossed test is false for every new value, so the tick
    callback sends nothing for it and leaves [isActive] alone: it only
    replaces [currentValue].  Yet [addAlert] accepts [equals]: a filled-in
    form with that condition appends an alert carrying it. *)
Theorem equals_alert_never_fires (a : Alert) :
  condition a = equals ->
  (forall newValue, thresholdCrossed a newValue = false)
  /\ (forall w,
       fst (tickAlert a w)
       = withCurrentValue a (newValueOf a (randomSource w (randomCalls w)))
       /\ isActive (fst (tickAlert a w)) = isActive a
       /\ events (snd (tickAlert a w)) = events w)
  /\ (forall (parseFloat : string -> Q) (nowId today : string)
             (alerts : list Alert) (form : Form.NewAlert),
       Form.condition form = equals ->
       truthy (Form.title form) = true ->
       truthy (Form.description form) = true ->
       truthy (Form.threshold form) = true ->
       exists created,
         fst (addAlert parseFloat nowId today alerts form) = alerts ++ [created]
         /\ condition created = equals).
Proof.
  intro Heq.
  assert (Hnever : forall newValue, thresholdCrossed a newValue = false).
  { intro newValue. unfold thresholdCrossed. rewrite Heq. reflexivity. }
  split; [exact Hnever|]. split.
  - intro w.
    destruct (tickAlert_result a w) as (sent & Hrun & Hsent).
    rewrite Hnever in Hrun. cbn [andb] in Hrun.
    assert (sent = []) as ->.
    { destruct sent as [|e sent']; [reflexivity|].
      destruct Hsent as [Hcontra _]; [discriminate|].
      rewrite Hnever in Hcontra. discriminate Hcontra. }
    rewrite Hrun. cbn [fst snd events]. rewrite app_nil_r.
    repeat split.
  - intros parseFloat nowId today alerts form Hcond Ht Hd Hth.
    unfold addAlert. rewrite Ht, Hd, Hth. cbn [andb fst].
    eexists. split; [reflexivity|]. exact Hcond.
Qed.

Lemma equals_alert_never_fires_witness :
  let alert := {| id := "7"; title := "Break-even";
                  description := "Burn equals zero";
                  type := info; threshold := 100; currentValue := 100;
                  isActive := false; createdAt := "2024-02-01";
                  metric := burn_rate; condition := equals;
                  emailNotifications := false; pushNotifications := true |} in
  let w := {| hasNotification := true; permission := granted;
              randomSource := fun _ => 1 # 2; randomCalls := 0; events := [] |} in
  thresholdCrossed alert 100 = false
  /\ isActive (fst (tickAlert alert w)) = false
  /\ events (snd (tickAlert alert w)) = [].
Proof.
  intros alert w.
  destruct (equals_alert_never_fires alert eq_refl) as (Hnever & Hrun & _).
  split; [apply Hnever|].
  destruct (Hrun w) as (_ & Hactive & Hevents).
  split; [exact Hactive | exact Hevents].
Defined.

End AlertFacts.

(** * Further properties of the forecast engine *)

Module ForecastMore.
Import JS Dashboard ForecastLoop.
Import ForecastFacts.



Lemma Qnat_le_24 (m : nat) : (m <= 24)%nat -> Qnat m <= 24.
Proof.
  intro Hm. unfold Qnat. change 24 with (inject_Z 24).
  rewrite <- Zle_Qle. lia.
Qed.

Lemma sumSalaries_filter_le (f : HeadcountRole -> bool) (roles : list HeadcountRole) :
  Forall (fun r => 0 <= salary r) roles ->
  sumSalaries (filter f roles) <= sumSalaries roles.
Proof.
  induction 1 as [|r roles Hr _ IH]; cbn [filter].
  - lra.
  - destruct (f r); rewrite !sumSalaries_cons; lra.
Qed.

Lemma filter_all {A : Type} (f : A -> bool) (l : list A) :
  Forall (fun x => f x = true) l -> filter f l = l.
Proof.
  induction 1 as [|x l Hx _ IH]; cbn [filter]; [reflexivity|].
  rewrite Hx, IH. reflexivity.
Qed.

Section Bounds.
Variable base : FinancialBaseline.
Variable st : list HeadcountRole.
Variable params : ForecastParams.

Lemma monthlyBurn_le_burn (m : nat) :
  Forall (fun r => 0 <= salary r) (localHeadcount st params) ->
  monthlyBurn base st params m <= burn (calculateForecast base st params).
Proof.
  intro Hpos. rewrite burn_unfolded.
  unfold monthlyBurn, monthlyHeadcountCost, effectiveRevenue.
  pose proof (sumSalaries_filter_le
                (fun r => Qltb (startMonth r) (Qnat m)) _ Hpos).
  lra.
Qed.





End Bounds.





(** Property X3.  With non-negative salaries and a displayed [burn] of zero or less, the
    runway is infinite and the series never falls from one month to the
    next. *)
Theorem series_grows_when_burn_not_positive
    (base : FinancialBaseline) (st : list HeadcountRole)
    (params : ForecastParams) :
  Forall (fun r => 0 <= salary r) (localHeadcount st params) ->
  burn (calculateForecast base st params) <= 0 ->
  runway (calculateForecast base st params) = PosInfinity
  /\ forall i x y,
       nth_error (forecastData (calculateForecast base st params)) i = Some x ->
       nth_error (forecastData (calculateForecast base st params)) (S i) = Some y ->
       x <= y.
Proof.
  intros Hpos Hburn. split.
  - rewrite runway_unfolded. apply Qltb_ge in Hburn. rewrite Hburn. reflexivity.
  - intros i x y Hx Hy.
    assert (Hup : currentBalanceAfter base st params i
                  <= currentBalanceAfter base st params (S i)).
    { cbn [currentBalanceAfter].
      pose proof (monthlyBurn_le_burn base st params (S i) Hpos). lra. }
    apply series_entry in Hy. destruct Hy as [[Hy _]|[_ ->]]; [discriminate|].
    apply series_entry in Hx. destruct Hx as [[-> ->]|[_ ->]].
    + pose proof (Q.le_max_r 0 (currentBalanceAfter base st params 1)). lra.
    + apply Q.max_le_compat_l. exact Hup.
Qed.

Lemma series_grows_when_burn_not_positive_witness :
  let params := {| monthlySpend := 0; oneTimeSpend := 0; priceIncrease := 60;
                   headcount := Some [] |} in
  runway (calculateForecast initialData [] params) = PosInfinity
  /\ forall i x y,
       nth_error (forecastData (calculateForecast initialData [] params)) i = Some x ->
       nth_error (forecastData (calculateForecast initialData [] params)) (S i) = Some y ->
       x <= y.
Proof.
  intro params.
  apply (series_grows_when_burn_not_positive initialData [] params).
  - constructor.
  - vm_compute. discriminate.
Defined.

Lemma balance_monotone_in_spend
    (base : FinancialBaseline) (st : list HeadcountRole)
    (p1 p2 : ForecastParams) (m : nat) :
  headcount p1 = headcount p2 ->
  priceIncrease p1 == priceIncrease p2 ->
  monthlySpend p1 <= monthlySpend p2 ->
  oneTimeSpend p1 <= oneTimeSpend p2 ->
  currentBalanceAfter base st p2 m <= currentBalanceAfter base st p1 m.
Proof.
  intros Hhc Hprice Hspend Honce.
  induction m as [|k IH]; cbn [currentBalanceAfter]; [lra|].
  assert (monthlyBurn base st p1 (S k) <= monthlyBurn base st p2 (S k)).
  { unfold monthlyBurn, monthlyHeadcountCost, effectiveRevenue, localHeadcount.
    rewrite Hhc, Hprice. lra. }
  lra.
Qed.

(** Property X4.  Spending more, monthly or at once, with the same price change and
    roles, raises the displayed burn and lowers, or leaves alone, every
    entry of the series. *)
Theorem forecast_monotone_in_spend
    (base : FinancialBaseline) (st : list HeadcountRole)
    (p1 p2 : ForecastParams) :
  headcount p1 = headcount p2 ->
  priceIncrease p1 == priceIncrease p2 ->
  monthlySpend p1 <= monthlySpend p2 ->
  oneTimeSpend p1 <= oneTimeSpend p2 ->
  burn (calculateForecast base st p1) <= burn (calculateForecast base st p2)
  /\ forall m x y,
       nth_error (forecastData (calculateForecast base st p1)) m = Some x ->
       nth_error (forecastData (calculateForecast base st p2)) m = Some y ->
       y <= x.
Proof.
  intros Hhc Hprice Hspend Honce. split.
  - rewrite !burn_unfolded. unfold localHeadcount. rewrite Hhc, Hprice. lra.
  - intros m x y Hx Hy.
    pose proof (balance_monotone_in_spend base st p1 p2 m
                  Hhc Hprice Hspend Honce) as Hle.
    apply series_entry in Hx. apply series_entry in Hy.
    destruct Hx as [[-> ->]|[Hm ->]]; destruct Hy as [[Hm' ->]|[Hm' ->]];
      try lia.
    + exact Hle.
    + apply Q.max_le_compat_l. exact Hle.
Qed.

Lemma forecast_monotone_in_spend_witness :
  let p1 := {| monthlySpend := 0; oneTimeSpend := 0; priceIncrease := 5;
               headcount := None |} in
  let p2 := {| monthlySpend := 50000; oneTimeSpend := 250000;
               priceIncrease := 5; headcount := None |} in
  burn (calculateForecast initialData [] p1)
  <= burn (calculateForecast initialData [] p2)
  /\ forall m x y,
       nth_error (forecastData (calculateForecast initialData [] p1)) m = Some x ->
       nth_error (forecastData (calculateForecast initialData [] p2)) m = Some y ->
       y <= x.
Proof.
  intros p1 p2.
  apply (forecast_monotone_in_spend initialData [] p1 p2);
    try reflexivity; vm_compute; discriminate.
Defined.

Lemma balance_ignores_late_role
    (base : FinancialBaseline) (st : list HeadcountRole)
    (params : ForecastParams) (before after : list HeadcountRole)
    (r : HeadcountRole) (m : nat) :
  localHeadcount st params = before ++ r :: after ->
  24 <= startMonth r ->
  (m <= 24)%nat ->
  currentBalanceAfter base st params m
  == currentBalanceAfter base st (withHeadcount params (before ++ after)) m.
Proof.
  intros Hroles Hlate. induction m as [|k IH]; intro Hm;
    cbn [currentBalanceAfter].
  - reflexivity.
  - rewrite IH by lia.
    rewrite (monthlyBurn_with_role base st params before after r Hroles).
    assert (Qltb (startMonth r) (Qnat (S k)) = false) as ->.
    { apply Qltb_ge. pose proof (Qnat_le_24 (S k) Hm). lra. }
    lra.
Qed.

(** Property X5.  A role that starts in month 24 or later is outside the 24 months the
    loop walks: the series is the same with or without it, although the
    displayed burn is higher by its salary. *)
Theorem late_role_moves_burn_not_series
    (base : FinancialBaseline) (st : list HeadcountRole)
    (params : ForecastParams) (before after : list HeadcountRole)
    (r : HeadcountRole) :
  localHeadcount st params = before ++ r :: after ->
  24 <= startMonth r ->
  burn (calculateForecast base st params)
  == burn (calculateForecast base st (withHeadcount params (before ++ after)))
     + salary r
  /\ forall m x y,
       nth_error (forecastData (calculateForecast base st params)) m = Some x ->
       nth_error (forecastData
                    (calculateForecast base st
                       (withHeadcount params (before ++ after)))) m = Some y ->
       x == y.
Proof.
  intros Hroles Hlate. split.
  - rewrite !burn_unfolded, Hroles.
    change (localHeadcount st (withHeadcount params (before ++ after)))
      with (before ++ after).
    rewrite !sumSalaries_app, sumSalaries_cons.
    cbn [withHeadcount monthlySpend priceIncrease]. lra.
  - intros m x y Hx Hy.
    apply series_entry in Hx. apply series_entry in Hy.
    destruct Hx as [[-> ->]|[Hm ->]]; destruct Hy as [[Hm' ->]|[Hm' ->]];
      try lia.
    + reflexivity.
    + apply Q.max_compat; [reflexivity|].
      apply (balance_ignores_late_role base st params before after r);
        [exact Hroles | exact Hlate | lia].
Qed.

Lemma late_role_moves_burn_not_series_witness :
  let late := {| id := "role-9"; role := "controller"; salary := 150000;
                 startMonth := 24 |} in
  let params := {| monthlySpend := 0; oneTimeSpend := 0; priceIncrease := 0;
                   headcount := Some [late] |} in
  burn (calculateForecast initialData [] params)
  == burn (calculateForecast initialData [] (withHeadcount params [])) + 150000
  /\ forall m x y,
       nth_error (forecastData (calculateForecast initialData [] params)) m = Some x ->
       nth_error (forecastData
                    (calculateForecast initialData [] (withHeadcount params [])))
                 m = Some y ->
       x == y.
Proof.
  intros late params.
  apply (late_role_moves_burn_not_series initialData [] params [] [] late eq_refl).
  vm_compute. discriminate.
Defined.

End ForecastMore.

(** * Properties of the headcount editor and the insight feed *)

Module RoleFacts.
Import JS DashboardState.
Import ForecastFacts.

Lemma keep_others (i : string) (roles : list Dashboard.HeadcountRole) :
  Forall (fun r => Dashboard.id r <> i) roles ->
  filter (fun r => negb (String.eqb (Dashboard.id r) i)) roles = roles.
Proof.
  intro H. apply ForecastMore.filter_all.
  eapply Forall_impl; [|exact H].
  intros r Hr. cbv beta in Hr. apply String.eqb_neq in Hr. rewrite Hr. reflexivity.
Qed.

(** Property X6.  Adding a role and removing it by its id gives back the list, provided
    no older role carries the id; two roles added within the same
    millisecond share their id and are removed together. *)
Theorem add_then_remove_role
    (now : string) (role : option string) (salary startMonth : option Q)
    (s : RoleState) :
  Forall (fun r => Dashboard.id r <> ("role-" ++ now)%string) (headcount s) ->
  headcount (removeRole ("role-" ++ now) (addRole now role salary startMonth s))
  = headcount s
  /\ forall role' salary' startMonth',
       headcount
         (removeRole ("role-" ++ now)
            (addRole now role' salary' startMonth'
               (addRole now role salary startMonth s)))
       = headcount s.
Proof.
  intro Hfresh.
  assert (Hdrop : forall r : Dashboard.HeadcountRole,
            Dashboard.id r = ("role-" ++ now)%string ->
            filter (fun r => negb (String.eqb (Dashboard.id r) ("role-" ++ now))) [r]
            = []).
  { intros r Hr. cbn [filter]. rewrite Hr, String.eqb_refl. reflexivity. }
  split.
  - cbn [removeRole addRole headcount].
    rewrite filter_app, keep_others by exact Hfresh.
    rewrite Hdrop by reflexivity. apply app_nil_r.
  - intros role' salary' startMonth'.
    cbn [removeRole addRole headcount].
    rewrite !filter_app, keep_others by exact Hfresh.
    rewrite !Hdrop by reflexivity. rewrite !app_nil_r. reflexivity.
Qed.

Lemma add_then_remove_role_witness :
  let old := {| Dashboard.id := "role-1700000000000"; Dashboard.role := "cfo";
                Dashboard.salary := 200000; Dashboard.startMonth := 0 |} in
  let s := {| headcount := [old]; scenarioCounter := 1 |} in
  headcount (removeRole "role-1700000000001"
               (addRole "1700000000001" None None None s))
  = [old].
Proof.
  intros old s.
  apply (add_then_remove_role "1700000000001" None None None s).
  repeat constructor. cbn. discriminate.
Defined.

Lemma sumSalaries_setSalary_absent (i : string) (v : Q)
    (roles : list Dashboard.HeadcountRole) :
  Forall (fun r => Dashboard.id r <> i) roles ->
  map (fun role => if String.eqb (Dashboard.id role) i
                   then setField role (SetSalary v) else role) roles
  = roles.
Proof.
  induction 1 as [|r roles Hr _ IH]; cbn [map]; [reflexivity|].
  apply String.eqb_neq in Hr. rewrite Hr, IH. reflexivity.
Qed.

(** Property X7.  Changing the salary of the one role that has a given id moves the
    displayed burn of the current scenario by the difference of the two
    salaries. *)
Theorem update_salary_moves_burn
    (i : string) (v monthlySpend oneTimeSpend priceIncrease : Q)
    (s : RoleState) (before after : list Dashboard.HeadcountRole)
    (r : Dashboard.HeadcountRole) :
  headcount s = before ++ r :: after ->
  Dashboard.id r = i ->
  Forall (fun r' => Dashboard.id r' <> i) before ->
  Forall (fun r' => Dashboard.id r' <> i) after ->
  Dashboard.burn
    (currentResult monthlySpend oneTimeSpend priceIncrease
       (updateRole i (SetSalary v) s))
  == Dashboard.burn (currentResult monthlySpend oneTimeSpend priceIncrease s)
     + v - Dashboard.salary r.
Proof.
  intros Hs Hid Hb Ha. unfold currentResult. rewrite !burn_unfolded.
  cbn [Dashboard.localHeadcount Dashboard.headcount updateRole headcount
       Dashboard.monthlySpend Dashboard.priceIncrease].
  rewrite Hs, map_app. cbn [map].
  rewrite !sumSalaries_setSalary_absent by assumption.
  rewrite Hid, String.eqb_refl.
  rewrite !sumSalaries_app, !sumSalaries_cons. cbn [setField Dashboard.salary].
  lra.
Qed.

Lemma update_salary_moves_burn_witness :
  let hire := {| Dashboard.id := "role-7"; Dashboard.role := "engineer";
                 Dashboard.salary := 100000; Dashboard.startMonth := 2 |} in
  let s := {| headcount := [hire]; scenarioCounter := 3 |} in
  Dashboard.burn (currentResult 0 0 0 (updateRole "role-7" (SetSalary 120000) s))
  == Dashboard.burn (currentResult 0 0 0 s) + 120000 - 100000.
Proof.
  intros hire s.
  apply (update_salary_moves_burn "role-7" 120000 0 0 0 s [] [] hire);
    try reflexivity; constructor.
Defined.

(** Property X8.  [updateRole] keeps the number of roles, and with an id that no role
    carries it leaves the list as it is. *)
Theorem update_role_keeps_the_others
    (i : string) (f : RoleField) (s : RoleState) :
  List.length (headcount (updateRole i f s)) = List.length (headcount s)
  /\ (forall r, In r (headcount s) -> Dashboard.id r <> i ->
        In r (headcount (updateRole i f s)))
  /\ (Forall (fun r => Dashboard.id r <> i) (headcount s) ->
      headcount (updateRole i f s) = headcount s).
Proof.
  cbn [updateRole headcount]. split; [apply length_map|]. split.
  - intros r Hin Hid. apply in_map_iff. exists r.
    apply String.eqb_neq in Hid. rewrite Hid. auto.
  - induction 1 as [|r roles Hr _ IH]; cbn [map]; [reflexivity|].
    apply String.eqb_neq in Hr. rewrite Hr, IH. reflexivity.
Qed.

Lemma update_role_keeps_the_others_witness :
  let hire := {| Dashboard.id := "role-7"; Dashboard.role := "engineer";
                 Dashboard.salary := 100000; Dashboard.startMonth := 2 |} in
  let s := {| headcount := [hire]; scenarioCounter := 3 |} in
  headcount (updateRole "role-8" (SetStartMonth 5) s) = [hire].
Proof.
  intros hire s.
  apply (update_role_keeps_the_others "role-8" (SetStartMonth 5) s).
  repeat constructor. cbn. discriminate.
Defined.

Lemma In_firstn {A : Type} (n : nat) (l : list A) (x : A) :
  In x (firstn n l) -> In x l.
Proof.
  revert l. induction n as [|n IH]; intros [|y l] Hin; cbn in Hin;
    try contradiction.
  destruct Hin as [->|Hin]; [left; reflexivity | right; apply IH; exact Hin].
Qed.

(** Property X9.  For a reading of [Math.random()] in its range [0 <= random < 1] the
    insight callback always finds an insight; it puts it first, keeps at
    most four older entries, and none of the entries it keeps is the
    "AI is monitoring..." placeholder. *)
Theorem insight_feed_bounded (random : Q) (prev : list string) :
  0 <= random -> random < 1 ->
  exists newInsight rest,
    insightTick random prev = Some (newInsight :: rest)
    /\ In newInsight mockInsights
    /\ startsWith newInsight "AI is monitoring" = false
    /\ (List.length rest <= 4)%nat
    /\ forall s, In s rest ->
         In s prev /\ startsWith s "AI is monitoring" = false.
Proof.
  intros Hlo Hhi. unfold insightTick, pickInsight.
  change (inject_Z (Z.of_nat (List.length mockInsights))) with 6.
  assert (Hindex : (0 <= Qfloor (random * 6) < 6)%Z).
  { split.
    - change 0%Z with (Qfloor 0). apply Qfloor_resp_le. lra.
    - pose proof (Qfloor_le (random * 6)) as Hfl.
      rewrite Zlt_Qlt. change (inject_Z 6) with 6.
      apply Qle_lt_trans with (random * 6); [exact Hfl | clear Hfl; lra]. }
  set (index := Qfloor (random * 6)) in *.
  destruct (Z.ltb_spec index 0) as [Hneg|_]; [lia|].
  destruct (nth_error mockInsights (Z.to_nat index)) as [newInsight|] eqn:Hpick.
  - exists newInsight,
      (firstn 4 (filter (fun insight =>
                           negb (startsWith insight "AI is monitoring")) prev)).
    split; [reflexivity|].
    assert (Hin : In newInsight mockInsights)
      by (eapply nth_error_In; exact Hpick).
    split; [exact Hin|]. split.
    + cbn in Hin.
      repeat (destruct Hin as [<-|Hin]; [reflexivity|]). contradiction.
    + split; [apply firstn_le_length|].
      intros s Hs. apply In_firstn in Hs. apply filter_In in Hs.
      destruct Hs as [Hs Hnot]. split; [exact Hs|].
      apply negb_true_iff. exact Hnot.
  - apply nth_error_None in Hpick.
    change (List.length mockInsights) with 6%nat in Hpick.
    clearbody index. lia.
Qed.

Lemma insight_feed_bounded_witness :
  exists newInsight rest,
    insightTick (1 # 2) ["AI is monitoring your data stream..."%string]
    = Some (newInsight :: rest)
    /\ In newInsight mockInsights
    /\ (List.length rest <= 4)%nat.
Proof.
  destruct (insight_feed_bounded (1 # 2)
              ["AI is monitoring your data stream..."%string])
    as (newInsight & rest & Hrun & Hin & _ & Hlen & _).
  - vm_compute. discriminate.
  - reflexivity.
  - exists newInsight, rest. auto.
Defined.

End RoleFacts.

(** * Properties of the budget editor *)

Module BudgetOpsFacts.
Import JS BudgetTracker BudgetOps.
Import ForecastFacts BudgetFacts.

Lemma color_of_variance (budgeted actual : Q) :
  ~ budgeted == 0 ->
  getVarianceColor budgeted actual
  = BudgetSpec.colorOf
      (BudgetSpec.classify ((actual - budgeted) / budgeted * 100)).
Proof.
  intro Hb. unfold getVarianceColor.
  rewrite (variance_finite _ _ Hb), three_way.
  destruct (BudgetSpec.classify _); reflexivity.
Qed.

Lemma color_is_red (s : BudgetSpec.Status) :
  BudgetSpec.colorOf s = "text-red-500 dark:text-red-400"%string
  <-> s = BudgetSpec.OverBudget.
Proof. destruct s; split; intro H; try reflexivity; discriminate H. Qed.

Lemma color_is_green (s : BudgetSpec.Status) :
  BudgetSpec.colorOf s = "text-green-500 dark:text-green-400"%string
  <-> s = BudgetSpec.UnderBudget.
Proof. destruct s; split; intro H; try reflexivity; discriminate H. Qed.



(** Property X11.  For a positive budget the over-budget colour means the actual exceeds
    110% of the budget and the under-budget colour means it is below 90%;
    for a negative budget both comparisons turn around. *)
Theorem budget_colours_as_ratios (budgeted actual : Q) :
  (0 < budgeted ->
     (getVarianceColor budgeted actual = "text-red-500 dark:text-red-400"%string
      <-> budgeted * (11 # 10) < actual)
     /\ (getVarianceColor budgeted actual
         = "text-green-500 dark:text-green-400"%string
         <-> actual < budgeted * (9 # 10)))
  /\ (budgeted < 0 ->
      (getVarianceColor budgeted actual = "text-red-500 dark:text-red-400"%string
       <-> actual < budgeted * (11 # 10))
      /\ (getVarianceColor budgeted actual
          = "text-green-500 dark:text-green-400"%string
          <-> budgeted * (9 # 10) < actual)).
Proof.
  assert (Hscale : ~ budgeted == 0 ->
            (actual - budgeted) / budgeted * 100 * budgeted
            == (actual - budgeted) * 100).
  { intro Hnz. field. exact Hnz. }
  split; intro Hb.
  - assert (Hnz : ~ budgeted == 0) by lra.
    specialize (Hscale Hnz).
    rewrite color_of_variance by exact Hnz.
    rewrite color_is_red, color_is_green, classify_over, classify_under.
    set (v := (actual - budgeted) / budgeted * 100) in *.
    split; split; intro H.
    + apply (Qmult_lt_compat_r _ _ budgeted) in H; lra.
    + apply (Qmult_lt_r _ _ budgeted); lra.
    + apply (Qmult_lt_compat_r _ _ budgeted) in H; lra.
    + apply (Qmult_lt_r _ _ budgeted); lra.
  - assert (Hnz : ~ budgeted == 0) by lra.
    specialize (Hscale Hnz).
    rewrite color_of_variance by exact Hnz.
    rewrite color_is_red, color_is_green, classify_over, classify_under.
    set (v := (actual - budgeted) / budgeted * 100) in *.
    assert (Hneg : 0 < - budgeted) by lra.
    split; split; intro H.
    + apply (Qmult_lt_compat_r _ _ (- budgeted)) in H; lra.
    + apply (Qmult_lt_r _ _ (- budgeted)); lra.
    + apply (Qmult_lt_compat_r _ _ (- budgeted)) in H; lra.
    + apply (Qmult_lt_r _ _ (- budgeted)); lra.
Qed.

Lemma budget_colours_as_ratios_witness :
  getVarianceColor 200000 221000 = "text-red-500 dark:text-red-400"%string
  <-> 200000 * (11 # 10) < 221000.
Proof.
  apply (budget_colours_as_ratios 200000 221000). reflexivity.
Defined.

(** Property X12.  [updateActual] changes nothing but [actual], and only in the lines
    that carry the id; a second update of the same id overrides the
    first. *)
Theorem update_actual_last_write_wins
    (i : string) (a1 a2 : Q) (items : list BudgetItem) :
  updateActual i a2 (updateActual i a1 items) = updateActual i a2 items
  /\ map (fun item => (id item, category item, budgeted item, month item))
         (updateActual i a2 items)
     = map (fun item => (id item, category item, budgeted item, month item)) items
  /\ forall item, In item (updateActual i a2 items) ->
       (id item = i /\ actual item = a2)
       \/ (id item <> i /\ In item items).
Proof.
  unfold updateActual. split; [|split].
  - rewrite map_map. apply map_ext. intro item.
    destruct (String.eqb (id item) i) eqn:E; cbn [id withActual].
    + rewrite E. reflexivity.
    + rewrite E. reflexivity.
  - rewrite map_map. apply map_ext. intro item.
    destruct (String.eqb (id item) i); reflexivity.
  - intros item Hin. apply in_map_iff in Hin.
    destruct Hin as (item0 & Heq & Hin0).
    destruct (String.eqb (id item0) i) eqn:E; subst item.
    + left. apply String.eqb_eq in E. split; [exact E | reflexivity].
    + right. apply String.eqb_neq in E. split; assumption.
Qed.

End BudgetOpsFacts.

(** * Properties of the KPI progress colour *)

Module KPIFacts.
Import JS KPI.
Import ForecastFacts.

(** Property X13.  For a positive target the bar is green from 90% of the target up,
    yellow from 70% up to 90%, and red below 70%; a value and a target
    that are both zero give [NaN] and a red bar. *)
Theorem progress_colour_thresholds (value target : Q) :
  (0 < target ->
     (getProgressColor value target = "bg-green-500 dark:bg-green-400"%string
      <-> target * (9 # 10) <= value)
     /\ (getProgressColor value target = "bg-yellow-500 dark:bg-yellow-400"%string
         <-> target * (7 # 10) <= value /\ value < target * (9 # 10))
     /\ (getProgressColor value target = "bg-red-500 dark:bg-red-400"%string
         <-> value < target * (7 # 10)))
  /\ (target == 0 -> value == 0 ->
      getProgressColor value target = "bg-red-500 dark:bg-red-400"%string).
Proof.
  split.
  - intro Ht.
    assert (Hnz : ~ target == 0) by lra.
    assert (Hscale : value / target * 100 * target == value * 100)
      by (field; exact Hnz).
    unfold getProgressColor, div.
    destruct (Qeq_bool target 0) eqn:E;
      [apply Qeq_bool_eq in E; contradiction|].
    cbn [mul ge].
    set (p := value / target * 100) in *.
    assert (H90 : 90 <= p <-> target * (9 # 10) <= value).
    { split; intro H.
      - apply (Qmult_le_compat_r _ _ target) in H; lra.
      - apply (Qmult_le_r _ _ target); lra. }
    assert (H70 : 70 <= p <-> target * (7 # 10) <= value).
    { split; intro H.
      - apply (Qmult_le_compat_r _ _ target) in H; lra.
      - apply (Qmult_le_r _ _ target); lra. }
    rewrite <- H90, <- H70.
    destruct (Qle_bool 90 p) eqn:E90; [|destruct (Qle_bool 70 p) eqn:E70].
    + apply Qle_bool_iff in E90.
      split; [|split]; split; intro Hx;
        first [discriminate Hx | reflexivity | lra | (split; lra)
              | (destruct Hx; lra) | tauto].
    + apply Qle_bool_iff in E70.
      assert (N90 : ~ 90 <= p) by (intro N; apply Qle_bool_iff in N; congruence).
      split; [|split]; split; intro Hx;
        first [discriminate Hx | reflexivity | lra | (split; lra)
              | (destruct Hx; lra) | tauto].
    + assert (N90 : ~ 90 <= p) by (intro N; apply Qle_bool_iff in N; congruence).
      assert (N70 : ~ 70 <= p) by (intro N; apply Qle_bool_iff in N; congruence).
      split; [|split]; split; intro Hx;
        first [discriminate Hx | reflexivity | lra | (split; lra)
              | (destruct Hx; lra) | tauto].
  - intros Ht Hv. unfold getProgressColor, div.
    rewrite (Qeq_eq_bool _ _ Ht).
    assert ((value ?= 0) = Eq) as -> by (apply Qeq_alt; exact Hv).
    reflexivity.
Qed.

Lemma progress_colour_thresholds_witness :
  getProgressColor 800000 1000000 = "bg-yellow-500 dark:bg-yellow-400"%string
  /\ getProgressColor 0 0 = "bg-red-500 dark:bg-red-400"%string.
Proof.
  split.
  - apply (progress_colour_thresholds 800000 1000000); [reflexivity|].
    split; [vm_compute; discriminate | reflexivity].
  - apply (progress_colour_thresholds 0 0); reflexivity.
Defined.

End KPIFacts.

(** * Further properties of the alerts *)

Module AlertOpsFacts.
Import JS Alerts AlertOps.
Import ForecastFacts AlertFacts.

Lemma tickAlert_alert (a : Alert) (w : World) :
  fst (tickAlert a w)
  = let newValue := newValueOf a (randomSource w (randomCalls w)) in
    if thresholdCrossed a newValue && negb (isActive a)
    then withIsActive (withCurrentValue a newValue) true
    else withCurrentValue a newValue.
Proof.
  destruct (tickAlert_result a w) as (sent & Hrun & _).
  rewrite Hrun. reflexivity.
Qed.

Lemma tickAlert_world (a : Alert) (w : World) :
  hasNotification (snd (tickAlert a w)) = hasNotification w
  /\ permission (snd (tickAlert a w)) = permission w
  /\ randomSource (snd (tickAlert a w)) = randomSource w
  /\ randomCalls (snd (tickAlert a w)) = S (randomCalls w).
Proof.
  destruct (tickAlert_result a w) as (sent & Hrun & _).
  rewrite Hrun. repeat split.
Qed.

(** A property of every callback run holds along the whole [map]. *)
Lemma tick_Forall2 (P : Alert -> Alert -> Prop) :
  (forall a w, P a (fst (tickAlert a w))) ->
  forall prevAlerts w, Forall2 P prevAlerts (fst (tick prevAlerts w)).
Proof.
  intros Hstep prevAlerts. unfold tick.
  induction prevAlerts as [|a rest IH]; intro w; cbn [mapM].
  - constructor.
  - unfold bind at 1. pose proof (Hstep a w) as Ha.
    destruct (tickAlert a w) as [a1 w1]. unfold bind at 1.
    pose proof (IH w1) as Hrest.
    destruct (mapM tickAlert rest w1) as [rest1 w2].
    constructor; assumption.
Qed.

Lemma tick_cons (a : Alert) (rest : list Alert) (w : World) :
  tick (a :: rest) w
  = (fst (tickAlert a w) :: fst (tick rest (snd (tickAlert a w))),
     snd (tick rest (snd (tickAlert a w)))).
Proof.
  unfold tick. cbn [mapM]. unfold bind, ret.
  destruct (tickAlert a w) as [a1 w1]. cbn [fst snd].
  destruct (mapM tickAlert rest w1) as [rest1 w2]. reflexivity.
Qed.

Lemma tick_world (prevAlerts : list Alert) :
  forall w,
  hasNotification (snd (tick prevAlerts w)) = hasNotification w
  /\ permission (snd (tick prevAlerts w)) = permission w
  /\ randomSource (snd (tick prevAlerts w)) = randomSource w
  /\ randomCalls (snd (tick prevAlerts w))
     = (randomCalls w + List.length prevAlerts)%nat.
Proof.
  induction prevAlerts as [|a rest IH]; intro w.
  - cbn. repeat split. lia.
  - rewrite tick_cons. cbn [snd List.length].
    destruct (tickAlert_world a w) as (H1 & H2 & H3 & H4).
    destruct (IH (snd (tickAlert a w))) as (I1 & I2 & I3 & I4).
    repeat split; try congruence. lia.
Qed.

(** Property X14.  A tick rewrites nothing in an alert but [currentValue] and
    [isActive], never turns an active alert off, and draws one random
    number per alert, leaving the notification permission as it was. *)
Theorem tick_only_moves_value_and_flag (prevAlerts : list Alert) (w : World) :
  Forall2
    (fun a a' =>
       a' = withIsActive (withCurrentValue a (currentValue a')) (isActive a')
       /\ (isActive a = true -> isActive a' = true))
    prevAlerts (fst (tick prevAlerts w))
  /\ randomCalls (snd (tick prevAlerts w))
     = (randomCalls w + List.length prevAlerts)%nat
  /\ permission (snd (tick prevAlerts w)) = permission w
  /\ hasNotification (snd (tick prevAlerts w)) = hasNotification w.
Proof.
  split.
  - apply tick_Forall2. intros a w0. rewrite tickAlert_alert. cbv zeta.
    destruct (thresholdCrossed a _ && negb (isActive a)) eqn:Hf.
    + split; [reflexivity | intros _; reflexivity].
    + split; [destruct a; reflexivity | intro H; exact H].
  - destruct (tick_world prevAlerts w) as (H1 & H2 & H3 & H4). auto.
Qed.








Lemma tickAlert_silent (a : Alert) (w : World) :
  hasNotification w = false \/ permission w = denied ->
  events (snd (tickAlert a w)) = events w.
Proof.
  intro Hoff. unfold tickAlert, bind, Math_random.
  destruct (thresholdCrossed a _ && negb (isActive a)); [|reflexivity].
  destruct (pushNotifications a); [|reflexivity].
  unfold showNotification. cbn [hasNotification permission].
  destruct Hoff as [-> | ->]; [reflexivity|].
  destruct (hasNotification w); reflexivity.
Qed.

(** Property X18.  Without the Notification API, or with permission denied, a tick sends
    nothing and asks for nothing, whatever the alerts do. *)
Theorem no_notification_without_permission
    (prevAlerts : list Alert) (w : World) :
  hasNotification w = false \/ permission w = denied ->
  events (snd (tick prevAlerts w)) = events w.
Proof.
  revert w. induction prevAlerts as [|a rest IH]; intros w Hoff.
  - reflexivity.
  - rewrite tick_cons. cbn [snd].
    destruct (tickAlert_world a w) as (H1 & H2 & _).
    rewrite IH; [apply tickAlert_silent; exact Hoff|].
    rewrite H1, H2. exact Hoff.
Qed.

Lemma no_notification_without_permission_witness :
  let alert := {| id := "1"; title := "Critical Cash Runway";
                  description := "Cash runway below 3 months";
                  type := critical; threshold := 3; currentValue := 3;
                  isActive := false; createdAt := "2024-01-15";
                  metric := runway; condition := below;
                  emailNotifications := true; pushNotifications := true |} in
  let w := {| hasNotification := true; permission := denied;
              randomSource := fun _ => 0; randomCalls := 0; events := [] |} in
  events (snd (tick [alert] w)) = [].
Proof.
  intros alert w.
  apply (no_notification_without_permission [alert] w).
  right. reflexivity.
Defined.

(** Property X19.  Dismissing an id takes exactly the alerts with that id out of the
    active list, as deleting them does, but keeps them in the list of
    alerts. *)
Theorem dismiss_hides_from_active_list (alerts : list Alert) (i : string) :
  activeAlerts (dismissAlert alerts i) = deleteAlert (activeAlerts alerts) i
  /\ activeAlerts (deleteAlert alerts i) = deleteAlert (activeAlerts alerts) i
  /\ map id (dismissAlert alerts i) = map id alerts.
Proof.
  unfold activeAlerts, deleteAlert, dismissAlert. split; [|split].
  - induction alerts as [|a rest IH]; [reflexivity|].
    cbn [map filter].
    destruct (String.eqb (id a) i) eqn:E.
    + cbn [isActive withIsActive]. rewrite IH.
      destruct (isActive a); [|reflexivity].
      cbn [filter]. rewrite E. reflexivity.
    + rewrite IH. destruct (isActive a); [|reflexivity].
      cbn [filter]. rewrite E. reflexivity.
  - induction alerts as [|a rest IH]; [reflexivity|].
    cbn [filter].
    destruct (String.eqb (id a) i) eqn:E; cbn [negb filter].
    + rewrite IH. destruct (isActive a); [|reflexivity].
      cbn [filter]. rewrite E. reflexivity.
    + rewrite IH. destruct (isActive a); [|reflexivity].
      cbn [filter]. rewrite E. reflexivity.
  - rewrite map_map. apply map_ext. intro a.
    destruct (String.eqb (id a) i); reflexivity.
Qed.

(** Property X20.  [addAlert] does nothing while the title, the description or the
    threshold text is empty; otherwise it appends one alert that is
    active at once, with a current value of 0, and clears the form. *)
Theorem add_alert_needs_all_fields
    (parseFloat : string -> Q) (nowId today : string)
    (alerts : list Alert) (form : Form.NewAlert) :
  (truthy (Form.title form) && truthy (Form.description form)
   && truthy (Form.threshold form) = false ->
   addAlert parseFloat nowId today alerts form = (alerts, form))
  /\ (truthy (Form.title form) && truthy (Form.description form)
      && truthy (Form.threshold form) = true ->
      exists created,
        addAlert parseFloat nowId today alerts form
        = (alerts ++ [created], Form.empty)
        /\ isActive created = true
        /\ currentValue created = 0
        /\ threshold created = parseFloat (Form.threshold form)
        /\ activeAlerts (alerts ++ [created]) = activeAlerts alerts ++ [created]).
Proof.
  unfold addAlert. split; intros ->.
  - reflexivity.
  - eexists. split; [reflexivity|].
    repeat (split; [reflexivity|]).
    unfold activeAlerts. rewrite filter_app. reflexivity.
Qed.

Lemma add_alert_needs_all_fields_witness :
  let form := {| Form.title := "Runway"; Form.description := "";
                 Form.type := warning; Form.threshold := "6";
                 Form.metric := runway; Form.condition := below;
                 Form.emailNotifications := true;
                 Form.pushNotifications := false |} in
  addAlert (fun _ => 6) "1700000000000" "2024-03-01" [] form = ([], form).
Proof.
  intro form.
  apply (add_alert_needs_all_fields (fun _ => 6) "1700000000000" "2024-03-01").
  reflexivity.
Defined.

End AlertOpsFacts.

(** * Properties of the cash-flow categories *)

Module CashFlowFacts.
Import JS CashFlow.

Lemma fold_amounts_from (l : list CashFlowItem) (acc : Q) :
  fold_left (fun sum item => sum + amount item) l acc
  == acc + fold_left (fun sum item => sum + amount item) l 0.
Proof.
  revert acc. induction l as [|x l IH]; intro acc; cbn [fold_left].
  - lra.
  - rewrite IH, (IH (0 + amount x)). lra.
Qed.

Lemma total_app (l1 l2 : list CashFlowItem) (c : string) :
  getCategoryTotal (l1 ++ l2) c
  == getCategoryTotal l1 c + getCategoryTotal l2 c.
Proof.
  unfold getCategoryTotal. rewrite filter_app, fold_left_app.
  apply fold_amounts_from.
Qed.



(** Property X22.  Appending an item moves the total of its own category by its amount
    and leaves every other category's total alone; removing an id that
    only that item carries restores the totals. *)
Theorem category_total_tracks_items
    (items : list CashFlowItem) (item : CashFlowItem) (c : string) :
  getCategoryTotal (items ++ [item]) c
  == getCategoryTotal items c
     + (if String.eqb (category item) c then amount item else 0)
  /\ (Forall (fun x => id x <> id item) items ->
      removeItem (items ++ [item]) (id item) = items).
Proof.
  split.
  - rewrite total_app. unfold getCategoryTotal at 2. cbn [filter].
    destruct (String.eqb (category item) c); cbn [fold_left]; lra.
  - intro Hfresh. unfold removeItem. rewrite filter_app. cbn [filter].
    rewrite String.eqb_refl. cbn [negb]. rewrite app_nil_r.
    apply ForecastMore.filter_all.
    eapply Forall_impl; [|exact Hfresh].
    intros x Hx. cbv beta in Hx. apply String.eqb_neq in Hx.
    rewrite Hx. reflexivity.
Qed.

Lemma category_total_tracks_items_witness :
  let rent := {| id := "3"; description := "Office Rent"; amount := -50000;
                 category := "Operations"; type := outflow;
                 date := "2024-01-01"; recurring := true |} in
  let ads := {| id := "4"; description := "Marketing Spend"; amount := -100000;
                category := "Marketing"; type := outflow;
                date := "2024-01-01"; recurring := true |} in
  removeItem ([rent] ++ [ads]) "4" = [rent].
Proof.
  intros rent ads.
  apply (category_total_tracks_items [rent] ads "Marketing").
  repeat constructor. cbn. discriminate.
Defined.

End CashFlowFacts.
